(** * jenkinsapi.artifact: saving and verifying a build artifact

    A shallow embedding of [jenkinsapi/artifact.py] (class [Artifact]) and
    the properties of its checksum loop, its verification step and its
    [save] policy.

    Python objects become records, the filesystem a finite map from paths
    to nodes, and the methods of [Artifact] computations in a state and
    exception monad over a [World] that holds the artifact object itself,
    the filesystem and the trace of observable effects (log records, HTTP
    requests, file opens). *)

From Stdlib Require Import ZArith List String Ascii Lia.
From Stdlib.Strings Require Import Byte.
From stdpp Require Import base gmap strings list.

Local Open Scope string_scope.
Local Open Scope Z_scope.

(** ** Bytes and the two Python value kinds the checksum loop compares *)

Definition bytes := list byte.

#[global] Instance byte_eq_dec : EqDecision byte := Byte.byte_eq_dec.

(** [f.read(n)] yields a [bytes] object; the sentinel handed to [iter] is a
    [str].  Only these two kinds of value meet in [_md5sum]. *)
Inductive pyobj : Type :=
| PyStr (s : string)
| PyBytes (b : bytes).

(** Python [==]: a [str] never equals a [bytes] object. *)
Definition py_eq (x y : pyobj) : bool :=
  match x, y with
  | PyStr s, PyStr t => bool_decide (s = t)
  | PyBytes a, PyBytes b => bool_decide (a = b)
  | _, _ => false
  end.

(** Python truth value: empty sequences are falsy. *)
Definition py_bool (x : pyobj) : bool :=
  match x with
  | PyStr "" => false
  | PyBytes [] => false
  | _ => true
  end.

(** ** hashlib

    [hashlib.md5] is a library object.  Its interface is [md5()],
    [update(data)] and [hexdigest()].  The one law of it that the checksum
    loop relies on is the documented one: feeding [a] and then [b] is the
    same as feeding [a + b]. *)
Class Hashlib := {
  hash_state : Type;
  md5_new : hash_state;
  md5_update : hash_state -> bytes -> hash_state;
  md5_hexdigest : hash_state -> string;
  md5_update_app : forall s a b,
    md5_update (md5_update s a) b = md5_update s (a ++ b)%list;
  md5_update_nil : forall s, md5_update s [] = s
}.

(** The digest of a byte string hashed in one pass. *)
Definition md5_of `{Hashlib} (content : bytes) : string :=
  md5_hexdigest (md5_update md5_new content).

(** ** Exceptions

    [ArtifactBroken] is the module's own; the others are the built-in ones
    its statements can raise. *)
Inductive Exception : Type :=
| ArtifactBroken (msg : string)
| AttributeError
| AssertionError
| OSError (path : string)
| RequestError (what : string)
| OverflowError
| MemoryError
| ValueError.

(** ** The platform

    What [f.read(n)] accepts depends on the interpreter and the machine:
    [maxsize] is [sys.maxsize], [bytes_header] the fixed size of a bytes
    object, and [alloc_limit] the size of the largest bytes object that can
    be allocated.  The default chunk of one MiB is taken to be
    allocatable. *)
Class Platform := {
  maxsize : Z;
  bytes_header : Z;
  alloc_limit : Z;
  bytes_header_nonneg : 0 <= bytes_header;
  alloc_limit_default : 2 ^ 20 <= alloc_limit;
  alloc_limit_maxsize : alloc_limit <= maxsize - bytes_header
}.

(** A 64-bit CPython on a machine that can allocate two GiB at once. *)
#[global] Instance cpython64 : Platform.
Proof.
  refine {| maxsize := 2 ^ 63 - 1; bytes_header := 33;
            alloc_limit := 2 ^ 31 |}; lia.
Defined.

(** ** Binary file objects

    A file opened with mode ["rb"] is its unread remainder.  [read(n)]
    converts [n] to an index ([OverflowError] outside the index range),
    refuses a length below -1 ([ValueError]), reads everything left for
    -1, and otherwise allocates a bytes object of [n] bytes
    ([OverflowError] when [n] plus the header does not fit an index,
    [MemoryError] when the allocation fails) and fills it with at most [n]
    bytes, [b""] at end of file. *)
Definition file_read `{Platform} (n : Z) (rest : bytes)
    : Exception + bytes * bytes :=
  if (n <? - maxsize - 1) || (maxsize <? n) then inl OverflowError
  else if n <? -1 then inl ValueError
  else if n =? -1 then
    if alloc_limit <? Z.of_nat (length rest) then inl MemoryError
    else inr (rest, [])
  else if maxsize - bytes_header <? n then inl OverflowError
  else if alloc_limit <? n then inl MemoryError
  else inr (take (Z.to_nat n) rest, drop (Z.to_nat n) rest).

(** The sentinel of [iter(lambda: f.read(chunksize), "")]. *)
Definition sentinel : pyobj := PyStr "".

(** How the [for] loop was left: the iterator was exhausted (the value
    read equalled the sentinel) or the body ran [break]. *)
Inductive loop_exit : Type :=
| Exhausted
| Break.

(** The loop of [_md5sum]:
<<
    for chunk in iter(lambda: f.read(chunksize), ""):
        if chunk:
            md5.update(chunk)
        else:
            break
>>
    Each round calls the lambda, stops the iteration when the value equals
    the sentinel, and otherwise runs the body; an exception of the read
    ends the loop and is the outcome.  [fuel] bounds the number of rounds;
    [None] means the bound was reached with the loop still running. *)
Fixpoint md5_loop `{Hashlib} `{Platform} (fuel : nat) (chunksize : Z)
    (f : bytes) (md5 : hash_state)
    : option (Exception + loop_exit * hash_state) :=
  match fuel with
  | O => None
  | S fuel' =>
      match file_read chunksize f with
      | inl e => Some (inl e)
      | inr (chunk, f') =>
          if py_eq (PyBytes chunk) sentinel then Some (inr (Exhausted, md5))
          else if py_bool (PyBytes chunk) then
            md5_loop fuel' chunksize f' (md5_update md5 chunk)
          else Some (inr (Break, md5))
      end
  end.

(** [_md5sum] on an open file holding [content]: the digest once the loop
    is over, or the exception that ended it. *)
Definition md5sum_file `{Hashlib} `{Platform} (fuel : nat) (content : bytes)
    (chunksize : Z) : option (Exception + string) :=
  match md5_loop fuel chunksize content md5_new with
  | Some (inr (_, md5)) => Some (inr (md5_hexdigest md5))
  | Some (inl e) => Some (inl e)
  | None => None
  end.

(** Rounds that always suffice: one per byte and the final empty read. *)
Definition rounds (content : bytes) : nat := S (length content).

(** ** Strings: the few [str] operations the module uses *)

(** [s.endswith(suffix)] *)
Definition endswith (s suffix : string) : bool :=
  let n := String.length s in
  let m := String.length suffix in
  (m <=? n)%nat && bool_decide (substring (n - m) m s = suffix).

(** [s.startswith(p)] *)
Definition startswith (s p : string) : bool := String.prefix p s.

(** [sub in s] *)
Definition contains (sub s : string) : Prop :=
  exists pre post, s = pre +:+ sub +:+ post.

(** [posixpath.join(a, b)] for two components. *)
Definition os_path_join (a b : string) : string :=
  if startswith b "/" then b
  else if bool_decide (a = "") || endswith a "/" then a +:+ b
  else a +:+ "/" +:+ b.

(** ** Collaborators

    [Build], [Job], [Jenkins], the requester and [Fingerprint] live in
    modules that this file only imports.  They enter as records holding
    exactly what [artifact.py] reads from them. *)

(** A streamed HTTP response: the chunks [iter_content] yields, and whether
    the stream breaks off after them. *)
Record Response := {
  iter_content : list bytes;
  stream_broken : bool
}.

(** Modelled from the spec: the outcome of validating a fingerprint,
    [Fingerprint(baseurl, id_, jenkins).validate_for_build(filename, job,
    buildno)], of jenkinsapi/fingerprint.py, which this module imports.  A
    failure of the fetch is a connectivity or parse error; a mismatch or a
    checksum without record is a returned value, not an error.  [None] is
    the failed fetch, [Some (valid, unknown)] the value returned and the
    object's [unknown] attribute after the call. *)
Definition FingerprintAnswer : Type := option (bool * bool).

(** The server handle [build.job.jenkins].
    - [requester_get url] is [requester.get_and_confirm_status(url, ...)];
      [None] when it raises.
    - [fingerprint_answer baseurl id_ filename job buildno] is how the
      fingerprint of checksum [id_] answers; nothing is assumed of how the
      two components of the answer relate. *)
Record Jenkins := {
  baseurl : string;
  requester_get : string -> option Response;
  fingerprint_answer :
    string -> string -> string -> string -> Z -> FingerprintAnswer
}.

Record Job := {
  jenkins : Jenkins;
  get_full_name : string
}.

(** [Build_bool] is [bool(build)], the truth value of the object in
    [if self.build:]. *)
Record Build := {
  job : Job;
  buildno : Z;
  Build_bool : bool
}.

(** The [Fingerprint] object as [_verify_download] holds it. *)
Record Fingerprint := {
  fp_baseurl : string;
  id_ : string;
  jenkins_obj : Jenkins;
  unknown : bool
}.

(** ** The artifact *)

Record Artifact := {
  filename : string;
  url : string;
  build : option Build;
  relative_path : option string
}.

(** [Artifact(filename, url, build, relative_path=None)] *)
Definition Artifact_init (filename url : string) (build : option Build)
    (relative_path : option string) : Artifact :=
  {| filename := filename; url := url; build := build;
     relative_path := relative_path |}.

(** Truth value of [self.build]: [None] is falsy. *)
Definition build_known (b : option Build) : bool :=
  match b with
  | None => false
  | Some b => Build_bool b
  end.

(** ** Outcomes and effects *)

(** Outcome of a call: a value, an exception, or a checksum loop that is
    still running when its round bound is reached. *)
Inductive Result (A : Type) : Type :=
| Return (a : A)
| Raise (e : Exception)
| Diverge.
Arguments Return {A} a.
Arguments Raise {A} e.
Arguments Diverge {A}.

Inductive Level : Type := INFO | WARNING.

Inductive Event : Type :=
| Log (level : Level) (msg : string)
| OpenRead (path : string)
| OpenWrite (path : string)
| HttpGet (url : string)
| FingerprintLookup (baseurl checksum : string).

Inductive Node : Type :=
| File (content : bytes)
| Dir.

(** The store: the artifact object, the filesystem, the paths at which
    opening for writing fails (missing parent directory, permissions), and
    the effects so far, oldest first. *)
Record World := {
  self : Artifact;
  fs : gmap string Node;
  unwritable : gset string;
  trace : list Event
}.

Definition M (A : Type) : Type := World -> Result A * World.

Definition ret {A} (a : A) : M A := fun w => (Return a, w).

Definition raise {A} (e : Exception) : M A := fun w => (Raise e, w).

Definition bind {A B} (m : M A) (k : A -> M B) : M B :=
  fun w =>
    match m w with
    | (Return a, w') => k a w'
    | (Raise e, w') => (Raise e, w')
    | (Diverge, w') => (Diverge, w')
    end.

Notation "'let*' x ':=' m 'in' k" := (bind m (fun x => k))
  (at level 10, x name, m at level 100, k at level 200).
Notation "m ';;;' k" := (bind m (fun _ => k))
  (at level 100, k at level 200, right associativity).

(** [try: body  except ArtifactBroken: handler] *)
Definition try_except_ArtifactBroken {A} (body handler : M A) : M A :=
  fun w =>
    match body w with
    | (Raise (ArtifactBroken _), w') => handler w'
    | r => r
    end.

Definition get_self : M Artifact := fun w => (Return (self w), w).

(** The world with further effects recorded. *)
Definition record (evs : list Event) (w : World) : World :=
  {| self := self w; fs := fs w; unwritable := unwritable w;
     trace := trace w ++ evs |}.

Definition emit (ev : Event) : M unit :=
  fun w => (Return tt, record [ev] w).

Definition set_fs (fs' : gmap string Node) : M unit :=
  fun w =>
    (Return tt,
     {| self := self w; fs := fs'; unwritable := unwritable w;
        trace := trace w |}).

Definition log_info (msg : string) : M unit := emit (Log INFO msg).
Definition log_warning (msg : string) : M unit := emit (Log WARNING msg).

(** [os.path.exists] and [os.path.isdir] *)
Definition os_path_exists (path : string) : M bool :=
  fun w => (Return (bool_decide (is_Some (fs w !! path))), w).

Definition os_path_isdir (path : string) : M bool :=
  fun w =>
    (Return match fs w !! path with Some Dir => true | _ => false end, w).

(** [open(path, "rb")] followed by reading: the content, or [OSError] when
    there is no regular file at [path]. *)
Definition open_rb (path : string) : M bytes :=
  emit (OpenRead path) ;;;
  fun w =>
    match fs w !! path with
    | Some (File content) => (Return content, w)
    | _ => (Raise (OSError path), w)
    end.

(** [open(path, "wb")]: creates or truncates the file. *)
Definition open_wb (path : string) : M unit :=
  emit (OpenWrite path) ;;;
  fun w =>
    match bool_decide (path ∈ unwritable w), fs w !! path with
    | true, _ | _, Some Dir => (Raise (OSError path), w)
    | false, _ => set_fs (<[path := File []]> (fs w)) w
    end.

(** [out.write(chunk)] on the file opened at [path] *)
Definition file_write (path : string) (chunk : bytes) : M unit :=
  fun w =>
    match fs w !! path with
    | Some (File content) =>
        set_fs (<[path := File (content ++ chunk)%list]> (fs w)) w
    | _ => (Raise (OSError path), w)
    end.

(** ** The methods of [Artifact] *)

Section Methods.
Context `{HL : Hashlib} `{PF : Platform}.

(** Default of the [chunksize] parameter of [_md5sum]. *)
Definition default_chunksize : Z := 2 ^ 20.

(** [Artifact._md5sum(fspath, chunksize)] *)
Definition _md5sum (fspath : string) (chunksize : Z) : M string :=
  let* content := open_rb fspath in
  match md5sum_file (rounds content) content chunksize with
  | Some (inr digest) => ret digest
  | Some (inl e) => raise e
  | None => fun w => (Diverge, w)
  end.

(** [Fingerprint(baseurl, id_, jenkins_obj)] *)
Definition Fingerprint_init (baseurl id_ : string) (jenkins_obj : Jenkins)
    : Fingerprint :=
  {| fp_baseurl := baseurl; id_ := id_; jenkins_obj := jenkins_obj;
     unknown := false |}.

(** [fp.validate_for_build(filename, job, build)]: the returned value and
    the object after the call. *)
Definition validate_for_build (fp : Fingerprint) (filename job : string)
    (build : Z) : M (bool * Fingerprint) :=
  emit (FingerprintLookup (fp_baseurl fp) (id_ fp)) ;;;
  match fingerprint_answer (jenkins_obj fp) (fp_baseurl fp) (id_ fp)
          filename job build with
  | None => raise (RequestError (fp_baseurl fp))
  | Some (valid, unk) =>
      ret (valid,
           {| fp_baseurl := fp_baseurl fp; id_ := id_ fp;
              jenkins_obj := jenkins_obj fp; unknown := unk |})
  end.

(** ["Artifact %s seems to be broken, check %s" % (local_md5, baseurl)] *)
Definition broken_message (local_md5 baseurl : string) : string :=
  "Artifact " +:+ local_md5 +:+ " seems to be broken, check " +:+ baseurl.

(** What the fingerprint of [checksum] answers when validated for artifact
    [a] of build [b]. *)
Definition validation (a : Artifact) (b : Build) (checksum : string)
    : FingerprintAnswer :=
  fingerprint_answer (jenkins (job b)) (baseurl (jenkins (job b))) checksum
    (filename a) (get_full_name (job b)) (buildno b).

(** [self.build.<attribute>]: [AttributeError] on [None]. *)
Definition self_build : M Build :=
  let* a := get_self in
  match build a with
  | None => raise AttributeError
  | Some b => ret b
  end.

(** [Artifact._verify_download(fspath, strict_validation)] *)
Definition _verify_download (fspath : string) (strict_validation : bool)
    : M bool :=
  let* local_md5 := _md5sum fspath default_chunksize in
  let* b := self_build in
  let baseurl := baseurl (jenkins (job b)) in
  let fp := Fingerprint_init baseurl local_md5 (jenkins (job b)) in
  let* a := get_self in
  let* answer :=
    validate_for_build fp (filename a) (get_full_name (job b)) (buildno b) in
  let '(valid, fp) := answer in
  if negb valid || (unknown fp && strict_validation) then
    raise (ArtifactBroken (broken_message local_md5 baseurl))
  else ret true.

(** [Artifact.get_jenkins_obj()], that is [self.build.get_jenkins_obj()],
    the server handle of the build's job. *)
Definition get_jenkins_obj : M Jenkins :=
  let* b := self_build in
  ret (jenkins (job b)).

(** [for chunk in ...: out.write(chunk)] *)
Fixpoint write_chunks (path : string) (chunks : list bytes) : M unit :=
  match chunks with
  | [] => ret tt
  | chunk :: chunks' => file_write path chunk ;;; write_chunks path chunks'
  end.

(** [Artifact._do_download(fspath)] *)
Definition _do_download (fspath : string) : M string :=
  let* j := get_jenkins_obj in
  let* a := get_self in
  emit (HttpGet (url a)) ;;;
  match requester_get j (url a) with
  | None => raise (RequestError (url a))
  | Some data =>
      open_wb fspath ;;;
      write_chunks fspath (iter_content data) ;;;
      (if stream_broken data then raise (RequestError (url a)) else ret tt) ;;;
      ret fspath
  end.

(** What [save] decides about a file already at [fspath], lines 57 to 74.
    [Some path] is the early [return fspath]; [None] falls through to the
    download. *)
Definition check_existing (fspath : string) (strict_validation : bool)
    : M (option string) :=
  let* a := get_self in
  let* present := os_path_exists fspath in
  if present then
    if build_known (build a) then
      try_except_ArtifactBroken
        (let* ok := _verify_download fspath strict_validation in
         if ok then
           log_info
             ("Local copy of " +:+ filename a +:+ " is already up to date.") ;;;
           ret (Some fspath)
         else ret None)
        (log_warning "Jenkins artifact could not be identified." ;;;
         ret None)
    else
      log_info "This file did not originate from Jenkins, so cannot check." ;;;
      ret None
  else
    log_info "Local file is missing, downloading new." ;;;
    ret None.

(** Everything [save] does before the download step, lines 51 to 74. *)
Definition before_download (fspath : string) (strict_validation : bool)
    : M (option string) :=
  let* a := get_self in
  log_info ("Saving artifact @ " +:+ url a +:+ " to " +:+ fspath) ;;;
  (if negb (endswith fspath (filename a)) then
     log_warning
       ("Attempt to change the filename of artifact " +:+ filename a
        +:+ " on save.")
   else ret tt) ;;;
  check_existing fspath strict_validation.

(** The download step of [save], lines 75 to 77: download, verify the fresh
    file, return. *)
Definition download_and_verify (fspath : string) (strict_validation : bool)
    : M string :=
  let* filepath := _do_download fspath in
  _verify_download filepath strict_validation ;;;
  ret fspath.

(** [Artifact.save(fspath, strict_validation)] *)
Definition save (fspath : string) (strict_validation : bool) : M string :=
  let* early := before_download fspath strict_validation in
  match early with
  | Some path => ret path
  | None => download_and_verify fspath strict_validation
  end.

(** [assert cond] *)
Definition assert (cond : bool) : M unit :=
  if cond then ret tt else raise AssertionError.

(** [Artifact.save_to_dir(dirpath, strict_validation)] *)
Definition save_to_dir (dirpath : string) (strict_validation : bool)
    : M string :=
  let* a := get_self in
  let* e := os_path_exists dirpath in
  assert e ;;;
  let* d := os_path_isdir dirpath in
  assert d ;;;
  let outputfilepath := os_path_join dirpath (filename a) in
  save outputfilepath strict_validation.

End Methods.

(** ** Reading traces *)

Definition is_download (ev : Event) : bool :=
  match ev with HttpGet _ => true | _ => false end.

(** Verification starts by opening the file for reading and goes on to the
    fingerprint lookup; no other step of [save] does either. *)
Definition is_verification (ev : Event) : bool :=
  match ev with
  | OpenRead _ | FingerprintLookup _ _ => true
  | _ => false
  end.

(** Number of downloads started in a trace. *)
Definition downloads (t : list Event) : nat :=
  length (List.filter is_download t).

(** Number of verification steps in a trace. *)
Definition verifications (t : list Event) : nat :=
  length (List.filter is_verification t).

(** ** The other methods of [Artifact] *)

(** [response.content] of a response that was not streamed: the whole
    body, which is what its chunks add up to; a transfer that breaks off
    makes the request itself fail. *)
Definition response_content (r : Response) : option bytes :=
  if stream_broken r then None else Some (concat (iter_content r)).

(** [Artifact.get_data()] *)
Definition get_data : M bytes :=
  let* j := get_jenkins_obj in
  let* a := get_self in
  emit (HttpGet (url a)) ;;;
  match requester_get j (url a) with
  | None => raise (RequestError (url a))
  | Some response =>
      match response_content response with
      | None => raise (RequestError (url a))
      | Some content => ret content
      end
  end.

(** [Artifact.__repr__()] on an instance of the class itself:
    ["<%s.%s %s>" % (module, class name, self.url)]. *)
Definition __repr__ (a : Artifact) : string :=
  "<" +:+ "jenkinsapi.artifact" +:+ "." +:+ "Artifact" +:+ " " +:+ url a
  +:+ ">".

(** ** Reading worlds *)

(** The world with other files. *)
Definition with_fs (m : gmap string Node) (w : World) : World :=
  {| self := self w; fs := m; unwritable := unwritable w; trace := trace w |}.

(** Whether [open(path, "wb")] goes through. *)
Definition can_open_wb (w : World) (path : string) : bool :=
  negb (bool_decide (path ∈ unwritable w)) &&
  match fs w !! path with Some Dir => false | _ => true end.

Definition is_checksum_pass (ev : Event) : bool :=
  match ev with OpenRead _ => true | _ => false end.

Definition is_lookup (ev : Event) : bool :=
  match ev with FingerprintLookup _ _ => true | _ => false end.

(** Files read for a checksum, and fingerprint lookups, in a trace. *)
Definition checksum_passes (t : list Event) : nat :=
  length (List.filter is_checksum_pass t).

Definition lookups (t : list Event) : nat :=
  length (List.filter is_lookup t).

(** A computation that only adds to the trace, and adds at most [d]
    downloads, [c] checksum passes and [l] fingerprint lookups. *)
Definition adds_at_most {A} (d c l : nat) (m : M A) : Prop :=
  forall w, exists evs,
    trace (snd (m w)) = (trace w ++ evs)%list /\
    (downloads evs <= d)%nat /\ (checksum_passes evs <= c)%nat /\
    (lookups evs <= l)%nat.

(** The log records [save] writes before it looks at the destination. *)
Definition prelude (a : Artifact) (fspath : string) : list Event :=
  Log INFO ("Saving artifact @ " +:+ url a +:+ " to " +:+ fspath)
  :: (if negb (endswith fspath (filename a)) then
        [Log WARNING
           ("Attempt to change the filename of artifact " +:+ filename a
            +:+ " on save.")]
      else []).

(** A computation that leaves the artifact object as it found it, whatever
    its outcome. *)
Definition keeps_self {A} (m : M A) : Prop :=
  forall w, self (snd (m w)) = self w.

(** A world with a regular file of content [c] at [p] over the files [m]. *)
Definition with_file (a : Artifact) (m : gmap string Node)
    (u : gset string) (t : list Event) (p : string) (c : bytes) : World :=
  {| self := a; fs := <[p := File c]> m; unwritable := u; trace := t |}.

(** ** An instance of the hash interface: MD5 (RFC 1321)

    Words are 32-bit integers kept in [Z], with the wrap-around written
    out.  The hash object is the message fed so far; [hexdigest] pads it,
    runs the compression function over its 64-byte blocks and prints the
    four state words in little-endian hexadecimal. *)
Module MD5.

Definition wrap32 (x : Z) : Z := x mod 2 ^ 32.

Definition rotl32 (x c : Z) : Z :=
  Z.lor (wrap32 (Z.shiftl x c)) (Z.shiftr x (32 - c)).

Definition not32 (x : Z) : Z := Z.lxor x (2 ^ 32 - 1).

Definition shifts : list Z :=
  [7; 12; 17; 22; 7; 12; 17; 22; 7; 12; 17; 22; 7; 12; 17; 22;
   5; 9; 14; 20; 5; 9; 14; 20; 5; 9; 14; 20; 5; 9; 14; 20;
   4; 11; 16; 23; 4; 11; 16; 23; 4; 11; 16; 23; 4; 11; 16; 23;
   6; 10; 15; 21; 6; 10; 15; 21; 6; 10; 15; 21; 6; 10; 15; 21].

Definition sines : list Z :=
  [0xd76aa478; 0xe8c7b756; 0x242070db; 0xc1bdceee;
   0xf57c0faf; 0x4787c62a; 0xa8304613; 0xfd469501;
   0x698098d8; 0x8b44f7af; 0xffff5bb1; 0x895cd7be;
   0x6b901122; 0xfd987193; 0xa679438e; 0x49b40821;
   0xf61e2562; 0xc040b340; 0x265e5a51; 0xe9b6c7aa;
   0xd62f105d; 0x02441453; 0xd8a1e681; 0xe7d3fbc8;
   0x21e1cde6; 0xc33707d6; 0xf4d50d87; 0x455a14ed;
   0xa9e3e905; 0xfcefa3f8; 0x676f02d9; 0x8d2a4c8a;
   0xfffa3942; 0x8771f681; 0x6d9d6122; 0xfde5380c;
   0xa4beea44; 0x4bdecfa9; 0xf6bb4b60; 0xbebfbc70;
   0x289b7ec6; 0xeaa127fa; 0xd4ef3085; 0x04881d05;
   0xd9d4d039; 0xe6db99e5; 0x1fa27cf8; 0xc4ac5665;
   0xf4292244; 0x432aff97; 0xab9423a7; 0xfc93a039;
   0x655b59c3; 0x8f0ccc92; 0xffeff47d; 0x85845dd1;
   0x6fa87e4f; 0xfe2ce6e0; 0xa3014314; 0x4e0811a1;
   0xf7537e82; 0xbd3af235; 0x2ad7d2bb; 0xeb86d391].

Definition Zbyte (b : byte) : Z := Z.of_N (Byte.to_N b).

(** The [n] low bytes of [x], little-endian, as numbers. *)
Fixpoint le_bytes (n : nat) (x : Z) : list Z :=
  match n with
  | O => []
  | S n' => x mod 256 :: le_bytes n' (x / 256)
  end.

(** Cut a list into runs of [n] elements ([fuel] bounds the number of
    runs). *)
Fixpoint chunks_of {A} (fuel n : nat) (l : list A) : list (list A) :=
  match fuel, l with
  | O, _ | _, [] => []
  | S fuel', _ => take n l :: chunks_of fuel' n (drop n l)
  end.

(** Message, then 0x80, then zeros up to 56 modulo 64, then the bit length
    on 8 bytes. *)
Definition padded (msg : bytes) : list Z :=
  let n := Z.of_nat (length msg) in
  let zeros := Z.to_nat ((55 - n) mod 64) in
  (map Zbyte msg ++ [128] ++ repeat 0 zeros
     ++ le_bytes 8 ((8 * n) mod 2 ^ 64))%list.

Fixpoint le_value_Z (bs : list Z) : Z :=
  match bs with
  | [] => 0
  | b :: bs' => b + 256 * le_value_Z bs'
  end.

Definition state : Type := Z * Z * Z * Z.

Definition initial : state :=
  (0x67452301, 0xefcdab89, 0x98badcfe, 0x10325476).

(** One of the 64 operations on a block of 16 words. *)
Definition operation (block : list Z) (st : state) (i : nat) : state :=
  let '(a, b, c, d) := st in
  let iz := Z.of_nat i in
  let '(f, g) :=
    if (i <? 16)%nat then
      (Z.lor (Z.land b c) (Z.land (not32 b) d), iz)
    else if (i <? 32)%nat then
      (Z.lor (Z.land d b) (Z.land (not32 d) c), (5 * iz + 1) mod 16)
    else if (i <? 48)%nat then
      (Z.lxor (Z.lxor b c) d, (3 * iz + 5) mod 16)
    else
      (Z.lxor c (Z.lor b (not32 d)), (7 * iz) mod 16) in
  let sum :=
    wrap32 (f + a + nth i sines 0 + nth (Z.to_nat g) block 0) in
  (d, wrap32 (b + rotl32 sum (nth i shifts 0)), b, c).

Definition compress (st : state) (block : list Z) : state :=
  let '(a0, b0, c0, d0) := st in
  let '(a, b, c, d) := fold_left (operation block) (seq 0 64) st in
  (wrap32 (a0 + a), wrap32 (b0 + b), wrap32 (c0 + c), wrap32 (d0 + d)).

Definition words_of_block (block : list Z) : list Z :=
  map le_value_Z (chunks_of 16 4 block).

Definition digest_state (msg : bytes) : state :=
  let p := padded msg in
  fold_left compress
    (map words_of_block (chunks_of (S (length p)) 64 p)) initial.

Definition hex_digit (n : Z) : ascii :=
  nth (Z.to_nat n)
    (list_ascii_of_string "0123456789abcdef") "0"%char.

Definition hex_of_byte (b : Z) : string :=
  String (hex_digit (b / 16)) (String (hex_digit (b mod 16)) EmptyString).

Definition hexdigest (msg : bytes) : string :=
  let '(a, b, c, d) := digest_state msg in
  String.concat ""
    (map hex_of_byte
       (le_bytes 4 a ++ le_bytes 4 b ++ le_bytes 4 c ++ le_bytes 4 d)%list).

End MD5.

(** [hashlib.md5]: the object is the message so far. *)
#[global] Instance hashlib_md5 : Hashlib := {|
  hash_state := bytes;
  md5_new := [];
  md5_update := fun s data => (s ++ data)%list;
  md5_hexdigest := MD5.hexdigest;
  md5_update_app := fun s a b => eq_sym (app_assoc s a b);
  md5_update_nil := fun s => app_nil_r s
|}.

Definition ascii_bytes (s : string) : bytes := list_byte_of_string s.

(** ** A server and an artifact to run the methods on *)

(** Modelled from the spec: the Fingerprint Resolver
    (jenkinsapi/fingerprint.py, not among the sources).  The server keeps,
    per checksum, the (job, build number, file name) triple of the build
    that produced it.  A checksum without record is unknown, which is not an
    error, and validation is true only if the recorded triple equals the
    expected one. *)
Definition resolver (db : gmap string (string * Z * string))
    (baseurl id_ filename job : string) (buildno : Z) : FingerprintAnswer :=
  match db !! id_ with
  | None => Some (false, true)
  | Some (j, n, f) =>
      Some (bool_decide (j = job) && (n =? buildno) && bool_decide (f = filename),
            false)
  end.

(** A resolver for which a checksum without record is unknown and passes
    validation all the same. *)
Definition lenient_resolver (db : gmap string (string * Z * string))
    (baseurl id_ filename job : string) (buildno : Z) : FingerprintAnswer :=
  match db !! id_ with
  | None => Some (true, true)
  | Some _ => resolver db baseurl id_ filename job buildno
  end.

Module Sample.

Definition log_content : bytes := ascii_bytes "build log of myjob #5".
Definition stale_content : bytes := ascii_bytes "an older log".

Definition log_url : string :=
  "http://ci.example/job/myjob/5/artifact/build.log".

(** The server knows the digest of [log_content] as [build.log] of
    myjob #5, and serves it in two chunks. *)
Definition db : gmap string (string * Z * string) :=
  {[ MD5.hexdigest log_content := ("myjob", 5, "build.log") ]}.

Definition requester (u : string) : option Response :=
  if bool_decide (u = log_url) then
    Some {| iter_content := [take 9 log_content; drop 9 log_content];
            stream_broken := false |}
  else None.

(** What [requester] answers for [log_url]. *)
Definition sample_response : Response :=
  {| iter_content := [take 9 log_content; drop 9 log_content];
     stream_broken := false |}.

Definition server : Jenkins :=
  {| baseurl := "http://ci.example"; requester_get := requester;
     fingerprint_answer := resolver db |}.

(** The same server with fingerprinting answered leniently. *)
Definition lenient_server : Jenkins :=
  {| baseurl := "http://ci.example"; requester_get := requester;
     fingerprint_answer := lenient_resolver db |}.

(** A server that sends back bytes it has no fingerprint for. *)
Definition corrupt_server : Jenkins :=
  {| baseurl := "http://ci.example";
     requester_get := fun _ =>
       Some {| iter_content := [stale_content]; stream_broken := false |};
     fingerprint_answer := resolver db |}.

Definition build5 (j : Jenkins) (truth : bool) : Build :=
  {| job := {| jenkins := j; get_full_name := "myjob" |};
     buildno := 5; Build_bool := truth |}.

Definition artifact : Artifact :=
  Artifact_init "build.log" log_url (Some (build5 server true)) None.

Definition lenient_artifact : Artifact :=
  Artifact_init "build.log" log_url (Some (build5 lenient_server true)) None.

Definition corrupt_artifact : Artifact :=
  Artifact_init "build.log" log_url (Some (build5 corrupt_server true)) None.

(** An artifact whose build object is falsy, and one without build. *)
Definition untracked_artifact : Artifact :=
  Artifact_init "build.log" log_url (Some (build5 server false)) None.

Definition orphan_artifact : Artifact :=
  Artifact_init "build.log" log_url None None.

Definition dest : string := "/tmp/build.log".

Definition world (a : Artifact) (files : gmap string Node) : World :=
  {| self := a; fs := files; unwritable := ∅; trace := [] |}.

Definition absent : gmap string Node := {[ "/tmp" := Dir ]}.
Definition current : gmap string Node :=
  {[ "/tmp" := Dir; dest := File log_content ]}.
Definition stale : gmap string Node :=
  {[ "/tmp" := Dir; dest := File stale_content ]}.

End Sample.

(** * Properties *)

(** ** The checksum loop *)

Section Checksum.
Context `{HL : Hashlib} `{PF : Platform}.

(** A value read from a binary file never equals the sentinel. *)
Lemma read_never_sentinel (chunk : bytes) :
  py_eq (PyBytes chunk) sentinel = false.
Proof. reflexivity. Qed.

(** The range of the platform. *)
Lemma platform_range : 2 ^ 20 <= alloc_limit /\ alloc_limit <= maxsize.
Proof.
  pose proof bytes_header_nonneg. pose proof alloc_limit_default.
  pose proof alloc_limit_maxsize. lia.
Qed.

(** A length that [read] accepts: the bytes asked for, or all that are
    left. *)
Lemma file_read_accepted (n : Z) (rest : bytes) :
  0 <= n <= alloc_limit ->
  file_read n rest = inr (take (Z.to_nat n) rest, drop (Z.to_nat n) rest).
Proof.
  intros Hn. pose proof platform_range. pose proof bytes_header_nonneg.
  pose proof alloc_limit_maxsize. unfold file_read.
  destruct (Z.ltb_spec n (- maxsize - 1)); [lia |].
  destruct (Z.ltb_spec maxsize n); [lia |]. cbn [orb].
  destruct (Z.ltb_spec n (-1)); [lia |].
  destruct (Z.eqb_spec n (-1)); [lia |].
  destruct (Z.ltb_spec (maxsize - bytes_header) n); [lia |].
  destruct (Z.ltb_spec alloc_limit n); [lia |].
  reflexivity.
Qed.

(** [read(-1)] hands out all that is left, if it can be allocated. *)
Lemma file_read_all (rest : bytes) :
  file_read (-1) rest =
  if alloc_limit <? Z.of_nat (length rest) then inl MemoryError
  else inr (rest, []).
Proof.
  pose proof platform_range. unfold file_read.
  destruct (Z.ltb_spec (-1) (- maxsize - 1)); [lia |].
  destruct (Z.ltb_spec maxsize (-1)); [lia |]. reflexivity.
Qed.

(** A positive length above what can be allocated is refused, whatever
    the file holds. *)
Lemma file_read_too_large (n : Z) :
  alloc_limit < n ->
  exists e, (e = OverflowError \/ e = MemoryError) /\
            forall rest, file_read n rest = inl e.
Proof.
  intros Hn. pose proof platform_range. unfold file_read.
  destruct (Z.ltb_spec n (- maxsize - 1)); [lia |].
  destruct (Z.ltb_spec maxsize n); cbn [orb]; [eauto |].
  destruct (Z.ltb_spec n (-1)); [lia |].
  destruct (Z.eqb_spec n (-1)); [lia |].
  destruct (Z.ltb_spec (maxsize - bytes_header) n); [eauto |].
  destruct (Z.ltb_spec alloc_limit n); [eauto | lia].
Qed.

(** A length below -1 is refused, whatever the file holds. *)
Lemma file_read_negative (n : Z) (rest : bytes) :
  n < -1 ->
  file_read n rest =
  inl (if n <? - maxsize - 1 then OverflowError else ValueError).
Proof.
  intros Hn. pose proof platform_range. unfold file_read.
  destruct (Z.ltb_spec n (- maxsize - 1)); [reflexivity |].
  destruct (Z.ltb_spec maxsize n); [lia |]. cbn [orb].
  destruct (Z.ltb_spec n (-1)); [reflexivity | lia].
Qed.

(** One round on a file that is not at its end, with a positive chunk
    size that [read] accepts: the chunk is fed to the hash and the loop
    goes on with the rest. *)
Lemma md5_loop_step (fuel : nat) (c : Z) (f : bytes) (md5 : hash_state) :
  0 < c <= alloc_limit -> f <> [] ->
  md5_loop (S fuel) c f md5 =
  md5_loop fuel c (drop (Z.to_nat c) f)
    (md5_update md5 (take (Z.to_nat c) f)).
Proof.
  intros Hc Hf. cbn [md5_loop]. rewrite file_read_accepted by lia.
  rewrite read_never_sentinel.
  destruct f as [| b f']; [congruence |].
  destruct (Z.to_nat c) as [| n] eqn:Hn; [lia |].
  reflexivity.
Qed.

(** One round at end of file: the read is empty and the body breaks. *)
Lemma md5_loop_eof (fuel : nat) (c : Z) (md5 : hash_state) :
  -1 <= c <= alloc_limit ->
  md5_loop (S fuel) c [] md5 = Some (inr (Break, md5)).
Proof.
  intros Hc. pose proof platform_range. cbn [md5_loop].
  destruct (Z.eq_dec c (-1)) as [-> | Hne].
  - rewrite file_read_all. cbn [length].
    destruct (Z.ltb_spec alloc_limit (Z.of_nat 0)); [lia | reflexivity].
  - rewrite file_read_accepted by lia.
    rewrite take_nil, drop_nil. reflexivity.
Qed.

(** With a positive chunk size that [read] accepts the loop reads the
    whole file and leaves by [break]. *)
Lemma md5_loop_positive (fuel : nat) (c : Z) (f : bytes) (md5 : hash_state) :
  0 < c <= alloc_limit -> (length f < fuel)%nat ->
  md5_loop fuel c f md5 = Some (inr (Break, md5_update md5 f)).
Proof.
  intros Hc. revert f md5.
  induction fuel as [| fuel IH]; intros f md5 Hlen; [lia |].
  destruct f as [| b f'].
  - rewrite md5_loop_eof by lia. rewrite md5_update_nil. reflexivity.
  - rewrite md5_loop_step by (lia || congruence).
    rewrite IH.
    + rewrite md5_update_app, take_drop. reflexivity.
    + rewrite length_drop. cbn [length] in *. lia.
Qed.

(** A chunk size of -1 reads everything at once, if it fits. *)
Lemma md5_loop_minus_one (fuel : nat) (f : bytes) (md5 : hash_state) :
  (length f < fuel)%nat ->
  md5_loop fuel (-1) f md5 =
  if alloc_limit <? Z.of_nat (length f) then Some (inl MemoryError)
  else Some (inr (Break, md5_update md5 f)).
Proof.
  intros Hlen. pose proof platform_range.
  destruct fuel as [| fuel]; [lia |].
  destruct f as [| b f'].
  - rewrite md5_loop_eof by lia. rewrite md5_update_nil. cbn [length].
    destruct (Z.ltb_spec alloc_limit (Z.of_nat 0)); [lia | reflexivity].
  - cbn [md5_loop]. rewrite file_read_all.
    destruct (alloc_limit <? Z.of_nat (length (b :: f'))); [reflexivity |].
    rewrite read_never_sentinel. cbn [py_bool].
    destruct fuel as [| fuel]; [cbn [length] in Hlen; lia |].
    apply md5_loop_eof. lia.
Qed.

(** A chunk size of zero reads nothing: the first read is empty. *)
Lemma md5_loop_zero (fuel : nat) (f : bytes) (md5 : hash_state) :
  md5_loop (S fuel) 0 f md5 = Some (inr (Break, md5)).
Proof.
  pose proof platform_range. cbn [md5_loop].
  rewrite file_read_accepted by lia. cbn [Z.to_nat].
  rewrite take_0. reflexivity.
Qed.

(** A chunk size that [read] refuses ends the loop at the first round. *)
Lemma md5_loop_too_large (fuel : nat) (c : Z) (f : bytes) (md5 : hash_state) :
  alloc_limit < c ->
  exists e, (e = OverflowError \/ e = MemoryError) /\
            md5_loop (S fuel) c f md5 = Some (inl e).
Proof.
  intros Hc. destruct (file_read_too_large c Hc) as (e & He & Hread).
  exists e. split; [exact He |]. cbn [md5_loop]. rewrite Hread. reflexivity.
Qed.

Lemma md5_loop_negative (fuel : nat) (c : Z) (f : bytes) (md5 : hash_state) :
  c < -1 ->
  md5_loop (S fuel) c f md5 =
  Some (inl (if c <? - maxsize - 1 then OverflowError else ValueError)).
Proof.
  intros Hc. cbn [md5_loop]. rewrite file_read_negative by exact Hc.
  reflexivity.
Qed.

(** The loop ends within [rounds] rounds whatever the chunk size, by
    [break] or by an exception of the read, never by the sentinel. *)
Lemma md5_loop_total (c : Z) (f : bytes) (md5 : hash_state) :
  (exists e, md5_loop (rounds f) c f md5 = Some (inl e)) \/
  (exists md5', md5_loop (rounds f) c f md5 = Some (inr (Break, md5'))).
Proof.
  unfold rounds.
  destruct (Z.lt_trichotomy c (-1)) as [Hneg | [Hone | Hge]].
  - left. eexists. apply md5_loop_negative. exact Hneg.
  - subst c. rewrite md5_loop_minus_one by lia.
    destruct (alloc_limit <? Z.of_nat (length f)); eauto.
  - destruct (Z.eq_dec c 0) as [-> | Hne].
    + right. eexists. apply md5_loop_zero.
    + destruct (Z_le_gt_dec c alloc_limit) as [Hle | Hgt].
      * right. eexists. apply md5_loop_positive; lia.
      * left. destruct (md5_loop_too_large (length f) c f md5)
          as (e & _ & He); [lia |]. eauto.
Qed.

(** More rounds than needed change nothing. *)
Lemma md5_loop_more_fuel (fuel fuel' : nat) (c : Z) (f : bytes)
    (md5 : hash_state) (r : Exception + loop_exit * hash_state) :
  md5_loop fuel c f md5 = Some r -> (fuel <= fuel')%nat ->
  md5_loop fuel' c f md5 = Some r.
Proof.
  revert fuel' f md5.
  induction fuel as [| fuel IH]; intros fuel' f md5 Hrun Hle;
    [discriminate |].
  destruct fuel' as [| fuel']; [lia |].
  cbn [md5_loop] in *.
  destruct (file_read c f) as [e | [chunk f']]; [exact Hrun |].
  destruct (py_eq (PyBytes chunk) sentinel); [exact Hrun |].
  destruct (py_bool (PyBytes chunk)); [| exact Hrun].
  apply IH; [exact Hrun | lia].
Qed.

Lemma md5sum_file_positive (content : bytes) (c : Z) :
  0 < c <= alloc_limit ->
  md5sum_file (rounds content) content c = Some (inr (md5_of content)).
Proof.
  intros Hc. unfold md5sum_file, rounds.
  rewrite md5_loop_positive by lia. reflexivity.
Qed.

Lemma md5sum_file_default (content : bytes) :
  md5sum_file (rounds content) content (2 ^ 20)
  = Some (inr (md5_of content)).
Proof. apply md5sum_file_positive. pose proof platform_range. lia. Qed.

Lemma md5sum_file_total (content : bytes) (c : Z) :
  exists r, md5sum_file (rounds content) content c = Some r.
Proof.
  unfold md5sum_file.
  destruct (md5_loop_total c content md5_new) as [[e ->] | [md5' ->]];
    eauto.
Qed.

End Checksum.

(** ** Running the methods *)

Lemma record_record (e1 e2 : list Event) (w : World) :
  record e2 (record e1 w) = record (e1 ++ e2)%list w.
Proof. unfold record. cbn. rewrite app_assoc. reflexivity. Qed.

Lemma record_nil (w : World) : record [] w = w.
Proof. destruct w. unfold record. cbn. rewrite app_nil_r. reflexivity. Qed.

Lemma self_record (evs : list Event) (w : World) :
  self (record evs w) = self w.
Proof. reflexivity. Qed.

Lemma fs_record (evs : list Event) (w : World) : fs (record evs w) = fs w.
Proof. reflexivity. Qed.

Lemma trace_record (evs : list Event) (w : World) :
  trace (record evs w) = (trace w ++ evs)%list.
Proof. reflexivity. Qed.

Lemma bind_return {A B} (m : M A) (k : A -> M B) (w w' : World) (a : A) :
  m w = (Return a, w') -> bind m k w = k a w'.
Proof. intros Hm. unfold bind. rewrite Hm. reflexivity. Qed.

Lemma bind_raise {A B} (m : M A) (k : A -> M B) (w w' : World)
    (e : Exception) :
  m w = (Raise e, w') -> bind m k w = (Raise e, w').
Proof. intros Hm. unfold bind. rewrite Hm. reflexivity. Qed.

Section Runs.
Context `{HL : Hashlib} `{PF : Platform}.

(** What [_md5sum] does, by the node found at the path. *)
Lemma _md5sum_run (p : string) (c : Z) (w : World) :
  _md5sum p c w =
  match fs w !! p with
  | Some (File content) =>
      match md5sum_file (rounds content) content c with
      | Some (inr digest) => (Return digest, record [OpenRead p] w)
      | Some (inl e) => (Raise e, record [OpenRead p] w)
      | None => (Diverge, record [OpenRead p] w)
      end
  | _ => (Raise (OSError p), record [OpenRead p] w)
  end.
Proof.
  unfold _md5sum, open_rb, bind, emit. cbn.
  destruct (fs w !! p) as [[content |] |]; try reflexivity.
  destruct (md5sum_file (rounds content) content c) as [[e | digest] |];
    reflexivity.
Qed.

(** What [_verify_download] does, by the node found at the path, the
    build reference and the answer of the fingerprint. *)
Lemma _verify_download_run (p : string) (strict : bool) (w : World) :
  _verify_download p strict w =
  match fs w !! p with
  | Some (File content) =>
      let local_md5 := md5_of content in
      match build (self w) with
      | None => (Raise AttributeError, record [OpenRead p] w)
      | Some b =>
          let base := baseurl (jenkins (job b)) in
          let w' := record [OpenRead p; FingerprintLookup base local_md5] w in
          match validation (self w) b local_md5 with
          | None => (Raise (RequestError base), w')
          | Some (valid, unk) =>
              if negb valid || (unk && strict) then
                (Raise (ArtifactBroken (broken_message local_md5 base)), w')
              else (Return true, w')
          end
      end
  | _ => (Raise (OSError p), record [OpenRead p] w)
  end.
Proof.
  unfold _verify_download. unfold bind at 1. rewrite _md5sum_run.
  destruct (fs w !! p) as [[content |] |]; try reflexivity.
  unfold default_chunksize. rewrite md5sum_file_default.
  unfold self_build, get_self, bind. cbn.
  destruct (build (self w)) as [b |]; [| reflexivity].
  cbn. unfold validation.
  destruct (fingerprint_answer _ _ _ _ _ _) as [[valid unk] |];
    unfold raise, ret; cbn; rewrite record_record; [| reflexivity].
  destruct (negb valid || unk && strict); reflexivity.
Qed.

End Runs.

(** ** Strings *)

Lemma append_nil_r (s : string) : s +:+ "" = s.
Proof.
  induction s as [| c s IH]; [reflexivity |].
  change (String c (s +:+ "") = String c s). congruence.
Qed.

Lemma append_assoc (s t u : string) : (s +:+ t) +:+ u = s +:+ t +:+ u.
Proof.
  induction s as [| c s IH]; [reflexivity |].
  change (String c ((s +:+ t) +:+ u) = String c (s +:+ t +:+ u)).
  congruence.
Qed.

Lemma contains_middle (pre sub post : string) :
  contains sub (pre +:+ sub +:+ post).
Proof. exists pre, post. reflexivity. Qed.

Lemma contains_end (pre sub : string) : contains sub (pre +:+ sub).
Proof. exists pre, "". rewrite append_nil_r. reflexivity. Qed.

Lemma broken_message_contains (local_md5 base : string) :
  contains local_md5 (broken_message local_md5 base) /\
  contains base (broken_message local_md5 base).
Proof.
  unfold broken_message. split.
  - apply contains_middle.
  - rewrite <- !append_assoc. apply contains_end.
Qed.

(** ** The verification step *)

Section Verification.
Context `{HL : Hashlib} `{PF : Platform}.

(** [validate_for_build] on the fingerprint that [_verify_download] builds
    returns what [validation] says, with [unknown] set accordingly. *)
Lemma validate_for_build_run (a : Artifact) (b : Build) (checksum : string)
    (w : World) :
  let base := baseurl (jenkins (job b)) in
  fst (validate_for_build (Fingerprint_init base checksum (jenkins (job b)))
         (filename a) (get_full_name (job b)) (buildno b) w) =
  match validation a b checksum with
  | None => Raise (RequestError base)
  | Some (valid, unk) =>
      Return (valid,
              {| fp_baseurl := base; id_ := checksum;
                 jenkins_obj := jenkins (job b); unknown := unk |})
  end.
Proof.
  unfold validate_for_build, validation, bind, emit. cbn.
  destruct (fingerprint_answer _ _ _ _ _ _) as [[valid unk] |]; reflexivity.
Qed.

(** C1, as amended: when [validate_for_build] returns true,
    [_verify_download] returns [True], except that with the fingerprint's
    [unknown] flag set and [strict_validation] true it raises
    [ArtifactBroken]. *)
Theorem verify_valid_unless_strict_unknown (p : string) (strict : bool)
    (w : World) (content : bytes) (b : Build) (unk : bool) :
  fs w !! p = Some (File content) ->
  build (self w) = Some b ->
  validation (self w) b (md5_of content) = Some (true, unk) ->
  fst (_verify_download p strict w) =
  if unk && strict then
    Raise (ArtifactBroken
             (broken_message (md5_of content) (baseurl (jenkins (job b)))))
  else Return true.
Proof.
  intros Hfile Hbuild Hvalid.
  rewrite _verify_download_run, Hfile. cbn zeta.
  rewrite Hbuild, Hvalid. cbn [negb orb].
  destruct (unk && strict); reflexivity.
Qed.

(** C2: when [validate_for_build] returns false, [_verify_download] raises
    [ArtifactBroken], whatever [strict_validation] and the [unknown] flag
    are. *)
Theorem verify_invalid_raises (p : string) (strict : bool) (w : World)
    (content : bytes) (b : Build) (unk : bool) :
  fs w !! p = Some (File content) ->
  build (self w) = Some b ->
  validation (self w) b (md5_of content) = Some (false, unk) ->
  fst (_verify_download p strict w) =
  Raise (ArtifactBroken
           (broken_message (md5_of content) (baseurl (jenkins (job b))))).
Proof.
  intros Hfile Hbuild Hvalid.
  rewrite _verify_download_run, Hfile. cbn zeta.
  rewrite Hbuild, Hvalid. reflexivity.
Qed.

(** C6: when [_verify_download] raises [ArtifactBroken], the message
    contains the checksum that [_md5sum] computed for the file and the base
    URL of the build's server. *)
Theorem broken_message_names_checksum_and_server (p : string) (strict : bool)
    (w : World) (msg : string) :
  fst (_verify_download p strict w) = Raise (ArtifactBroken msg) ->
  exists local_md5 b,
    fst (_md5sum p default_chunksize w) = Return local_md5 /\
    build (self w) = Some b /\
    contains local_md5 msg /\
    contains (baseurl (jenkins (job b))) msg.
Proof.
  rewrite _verify_download_run, _md5sum_run.
  destruct (fs w !! p) as [[content |] |]; cbn; try discriminate.
  unfold default_chunksize. rewrite md5sum_file_default.
  destruct (build (self w)) as [b |]; cbn; [| discriminate].
  destruct (validation (self w) b (md5_of content)) as [[valid unk] |];
    cbn; [| discriminate].
  destruct (negb valid || unk && strict); cbn; [| discriminate].
  intros [= <-].
  exists (md5_of content), b.
  pose proof (broken_message_contains (md5_of content)
                (baseurl (jenkins (job b)))) as [Hmd5 Hbase].
  auto.
Qed.

(** C9: [_verify_download] returns [True] or raises; it never returns
    another value and never runs forever. *)
Theorem verify_returns_true_or_raises (p : string) (strict : bool)
    (w : World) :
  fst (_verify_download p strict w) = Return true \/
  exists e, fst (_verify_download p strict w) = Raise e.
Proof.
  rewrite _verify_download_run.
  destruct (fs w !! p) as [[content |] |]; cbn; eauto.
  destruct (build (self w)) as [b |]; cbn; eauto.
  destruct (validation (self w) b (md5_of content)) as [[valid unk] |];
    cbn; eauto.
  destruct (negb valid || unk && strict); cbn; eauto.
Qed.

(** C7, as amended: for a file of a given content, at any path and in any
    world, [_md5sum] returns the same digest for every two positive chunk
    sizes that [f.read] accepts (at most the largest bytes object the
    platform allocates, itself below [sys.maxsize]): the digest of the
    whole content hashed in one pass. *)
Theorem md5sum_chunk_size_independent (content : bytes) (c1 c2 : Z)
    (p1 p2 : string) (w1 w2 : World) :
  0 < c1 <= alloc_limit -> 0 < c2 <= alloc_limit ->
  fs w1 !! p1 = Some (File content) ->
  fs w2 !! p2 = Some (File content) ->
  fst (_md5sum p1 c1 w1) = Return (md5_of content) /\
  fst (_md5sum p2 c2 w2) = Return (md5_of content).
Proof.
  intros Hc1 Hc2 Hf1 Hf2.
  rewrite !_md5sum_run, Hf1, Hf2, !md5sum_file_positive by assumption.
  split; reflexivity.
Qed.

(** C10, as amended: for a positive chunk size [_md5sum] ends on every
    file.  No value read equals the sentinel.  When [f.read] accepts the
    chunk size, the loop is left by [break] once the file is exhausted,
    within one round per byte plus one, and [_md5sum] returns a digest.
    When the chunk size is above what can be allocated, the first read
    raises [OverflowError] or [MemoryError], which is what [_md5sum]
    raises. *)
Theorem md5sum_terminates (content : bytes) (c : Z) :
  0 < c ->
  (forall chunk : bytes, py_eq (PyBytes chunk) sentinel = false) /\
  (c <= alloc_limit ->
   (exists md5, forall fuel, (length content < fuel)%nat ->
      md5_loop fuel c content md5_new = Some (inr (Break, md5))) /\
   (forall p w, fs w !! p = Some (File content) ->
      exists digest, fst (_md5sum p c w) = Return digest)) /\
  (alloc_limit < c ->
   exists e, (e = OverflowError \/ e = MemoryError) /\
     (forall fuel, md5_loop (S fuel) c content md5_new = Some (inl e)) /\
     (forall p w, fs w !! p = Some (File content) ->
        fst (_md5sum p c w) = Raise e)).
Proof.
  intros Hc. split; [exact read_never_sentinel |]. split.
  - intros Hle. split.
    + exists (md5_update md5_new content). intros fuel Hfuel.
      apply md5_loop_positive; [lia | assumption].
    + intros p w Hfile. exists (md5_of content).
      rewrite _md5sum_run, Hfile, md5sum_file_positive by lia.
      reflexivity.
  - intros Hgt. destruct (file_read_too_large c Hgt) as (e & He & Hread).
    exists e. split; [exact He |]. split.
    + intros fuel. cbn [md5_loop]. rewrite Hread. reflexivity.
    + intros p w Hfile. rewrite _md5sum_run, Hfile.
      unfold md5sum_file, rounds. cbn [md5_loop]. rewrite Hread.
      reflexivity.
Qed.

End Verification.

(** ** Traces *)

Lemma downloads_app (t1 t2 : list Event) :
  downloads (t1 ++ t2) = (downloads t1 + downloads t2)%nat.
Proof.
  unfold downloads. rewrite List.filter_app, length_app. reflexivity.
Qed.

Lemma verifications_app (t1 t2 : list Event) :
  verifications (t1 ++ t2) = (verifications t1 + verifications t2)%nat.
Proof.
  unfold verifications. rewrite List.filter_app, length_app. reflexivity.
Qed.

Lemma downloads_prelude (a : Artifact) (p : string) :
  downloads (prelude a p) = 0%nat.
Proof. unfold prelude. destruct (negb _); reflexivity. Qed.

Lemma verifications_prelude (a : Artifact) (p : string) :
  verifications (prelude a p) = 0%nat.
Proof. unfold prelude. destruct (negb _); reflexivity. Qed.

(** ** The artifact object is never written *)

Section Frame.
Context `{HL : Hashlib} `{PF : Platform}.

Lemma keeps_self_ret {A} (a : A) : keeps_self (ret a).
Proof. intros w. reflexivity. Qed.

Lemma keeps_self_raise {A} (e : Exception) : keeps_self (@raise A e).
Proof. intros w. reflexivity. Qed.

Lemma keeps_self_bind {A B} (m : M A) (k : A -> M B) :
  keeps_self m -> (forall a, keeps_self (k a)) -> keeps_self (bind m k).
Proof.
  intros Hm Hk w. unfold bind. specialize (Hm w).
  destruct (m w) as [[a | e |] w']; cbn in *; [| assumption..].
  rewrite Hk. assumption.
Qed.

Lemma keeps_self_try {A} (body handler : M A) :
  keeps_self body -> keeps_self handler ->
  keeps_self (try_except_ArtifactBroken body handler).
Proof.
  intros Hb Hh w. unfold try_except_ArtifactBroken. specialize (Hb w).
  destruct (body w) as [[a | [msg | | | path | what | | |] |] w']; cbn in *;
    try assumption.
  rewrite Hh. assumption.
Qed.

Lemma keeps_self_get_self : keeps_self get_self.
Proof. intros w. reflexivity. Qed.

Lemma keeps_self_emit (ev : Event) : keeps_self (emit ev).
Proof. intros w. reflexivity. Qed.

Lemma keeps_self_set_fs (m : gmap string Node) : keeps_self (set_fs m).
Proof. intros w. reflexivity. Qed.

Lemma keeps_self_diverge {A} : keeps_self (fun w => (@Diverge A, w)).
Proof. intros w. reflexivity. Qed.

Lemma keeps_self_exists (p : string) : keeps_self (os_path_exists p).
Proof. intros w. reflexivity. Qed.

Lemma keeps_self_isdir (p : string) : keeps_self (os_path_isdir p).
Proof. intros w. reflexivity. Qed.

Lemma keeps_self_open_rb (p : string) : keeps_self (open_rb p).
Proof.
  intros w. unfold open_rb, bind, emit. cbn.
  destruct (fs w !! p) as [[content |] |]; reflexivity.
Qed.

Lemma keeps_self_open_wb (p : string) : keeps_self (open_wb p).
Proof.
  intros w. unfold open_wb, bind, emit. cbn.
  destruct (bool_decide (p ∈ unwritable w));
    destruct (fs w !! p) as [[content |] |]; reflexivity.
Qed.

Lemma keeps_self_file_write (p : string) (chunk : bytes) :
  keeps_self (file_write p chunk).
Proof.
  intros w. unfold file_write.
  destruct (fs w !! p) as [[content |] |]; reflexivity.
Qed.

Create HintDb frame.
#[local] Hint Resolve keeps_self_ret keeps_self_raise keeps_self_get_self
  keeps_self_emit keeps_self_set_fs keeps_self_diverge keeps_self_exists
  keeps_self_isdir keeps_self_open_rb keeps_self_open_wb
  keeps_self_file_write : frame.

(** Walks down a method body: binds, handlers, and the case analyses the
    body makes on values. *)
Ltac frame :=
  repeat first
    [ solve [auto with frame]
    | apply keeps_self_bind; [| intros ?]
    | apply keeps_self_try
    | match goal with
      | |- keeps_self (match ?x with _ => _ end) => destruct x
      | |- keeps_self (let '(_, _) := ?x in _) => destruct x
      end ].

Lemma keeps_self_write_chunks (p : string) (chunks : list bytes) :
  keeps_self (write_chunks p chunks).
Proof. induction chunks as [| chunk chunks IH]; cbn [write_chunks]; frame. Qed.

Lemma keeps_self_md5sum (p : string) (c : Z) : keeps_self (_md5sum p c).
Proof. unfold _md5sum. frame. Qed.

Lemma keeps_self_validate (fp : Fingerprint) (f j : string) (n : Z) :
  keeps_self (validate_for_build fp f j n).
Proof. unfold validate_for_build. frame. Qed.

Lemma keeps_self_self_build : keeps_self self_build.
Proof. unfold self_build. frame. Qed.

#[local] Hint Resolve keeps_self_write_chunks keeps_self_md5sum
  keeps_self_validate keeps_self_self_build : frame.

Lemma keeps_self_verify_download (p : string) (strict : bool) :
  keeps_self (_verify_download p strict).
Proof. unfold _verify_download. frame. Qed.

Lemma keeps_self_get_jenkins_obj : keeps_self get_jenkins_obj.
Proof. unfold get_jenkins_obj. frame. Qed.

#[local] Hint Resolve keeps_self_verify_download keeps_self_get_jenkins_obj
  : frame.

Lemma keeps_self_do_download (p : string) : keeps_self (_do_download p).
Proof. unfold _do_download. frame. Qed.

#[local] Hint Resolve keeps_self_do_download : frame.

Lemma keeps_self_check_existing (p : string) (strict : bool) :
  keeps_self (check_existing p strict).
Proof. unfold check_existing, log_info, log_warning. frame. Qed.

#[local] Hint Resolve keeps_self_check_existing : frame.

Lemma keeps_self_before_download (p : string) (strict : bool) :
  keeps_self (before_download p strict).
Proof. unfold before_download, log_info, log_warning. frame. Qed.

Lemma keeps_self_download_and_verify (p : string) (strict : bool) :
  keeps_self (download_and_verify p strict).
Proof. unfold download_and_verify. frame. Qed.

#[local] Hint Resolve keeps_self_before_download
  keeps_self_download_and_verify : frame.

Lemma keeps_self_save (p : string) (strict : bool) :
  keeps_self (save p strict).
Proof. unfold save. frame. Qed.

Lemma keeps_self_assert (cond : bool) : keeps_self (assert cond).
Proof. unfold assert. frame. Qed.

#[local] Hint Resolve keeps_self_save keeps_self_assert : frame.

Lemma keeps_self_save_to_dir (d : string) (strict : bool) :
  keeps_self (save_to_dir d strict).
Proof. unfold save_to_dir. frame. Qed.

(** C8: [save], [save_to_dir] and [_verify_download] leave the artifact's
    [filename], [url], [build] and [relative_path] as they were, whether
    they return or raise. *)
Theorem artifact_is_immutable (w : World) (path : string) (strict : bool) :
  let same (w' : World) :=
    filename (self w') = filename (self w) /\
    url (self w') = url (self w) /\
    build (self w') = build (self w) /\
    relative_path (self w') = relative_path (self w) in
  same (snd (save path strict w)) /\
  same (snd (save_to_dir path strict w)) /\
  same (snd (_verify_download path strict w)).
Proof.
  intros same. subst same. cbv beta.
  rewrite (keeps_self_save path strict w),
    (keeps_self_save_to_dir path strict w),
    (keeps_self_verify_download path strict w).
  tauto.
Qed.

End Frame.

(** ** The policy of [save] *)

Section Save.
Context `{HL : Hashlib} `{PF : Platform}.

(** The outcome of a verification depends on the files and on the artifact
    only, not on what happened before. *)
Lemma verify_outcome_ext (p : string) (strict : bool) (w1 w2 : World) :
  fs w1 = fs w2 -> self w1 = self w2 ->
  fst (_verify_download p strict w1) = fst (_verify_download p strict w2).
Proof.
  intros Hfs Hself. rewrite !_verify_download_run, Hfs, Hself.
  destruct (fs w2 !! p) as [[content |] |]; cbn; try reflexivity.
  destruct (build (self w2)) as [b |]; cbn; [| reflexivity].
  destruct (validation (self w2) b (md5_of content)) as [[valid unk] |];
    cbn; [| reflexivity].
  destruct (negb valid || unk && strict); reflexivity.
Qed.

(** A verification only adds to the trace, and what it adds holds no
    download. *)
Lemma verify_effects (p : string) (strict : bool) (w : World) :
  exists evs,
    snd (_verify_download p strict w) = record evs w /\ downloads evs = 0%nat.
Proof.
  rewrite _verify_download_run.
  destruct (fs w !! p) as [[content |] |]; cbn;
    try (eexists; split; reflexivity).
  destruct (build (self w)) as [b |]; cbn;
    try (eexists; split; reflexivity).
  destruct (validation (self w) b (md5_of content)) as [[valid unk] |];
    cbn; try (eexists; split; reflexivity).
  destruct (negb valid || unk && strict); eexists; split; reflexivity.
Qed.

(** A verification that returns found a regular file, and returned
    [True]. *)
Lemma verify_returns_file (p : string) (strict : bool) (w : World)
    (v : bool) :
  fst (_verify_download p strict w) = Return v ->
  v = true /\ exists content, fs w !! p = Some (File content).
Proof.
  rewrite _verify_download_run.
  destruct (fs w !! p) as [[content |] |]; cbn; try discriminate.
  destruct (build (self w)) as [b |]; cbn; [| discriminate].
  destruct (validation (self w) b (md5_of content)) as [[valid unk] |];
    cbn; [| discriminate].
  destruct (negb valid || unk && strict); cbn; [discriminate |].
  intros [= <-]. eauto.
Qed.

Lemma before_download_run (p : string) (strict : bool) (w : World) :
  before_download p strict w =
  check_existing p strict (record (prelude (self w) p) w).
Proof.
  unfold before_download, prelude, bind, get_self, log_info, log_warning,
    emit, ret.
  destruct (negb (endswith p (filename (self w)))); cbn;
    rewrite ?record_record; reflexivity.
Qed.

(** The four ways through lines 57 to 74. *)
Lemma check_existing_missing (p : string) (strict : bool) (w : World) :
  fs w !! p = None ->
  check_existing p strict w =
  (Return None, record [Log INFO "Local file is missing, downloading new."] w).
Proof.
  intros Hnone. unfold check_existing, bind, get_self, os_path_exists.
  rewrite Hnone. reflexivity.
Qed.

Lemma check_existing_untracked (p : string) (strict : bool) (w : World) :
  is_Some (fs w !! p) ->
  build_known (build (self w)) = false ->
  check_existing p strict w =
  (Return None,
   record
     [Log INFO "This file did not originate from Jenkins, so cannot check."]
     w).
Proof.
  intros Hsome Hbuild. unfold check_existing, bind, get_self, os_path_exists.
  rewrite (bool_decide_eq_true_2 _ Hsome), Hbuild. reflexivity.
Qed.

Lemma check_existing_tracked (p : string) (strict : bool) (w : World) :
  is_Some (fs w !! p) ->
  build_known (build (self w)) = true ->
  check_existing p strict w =
  match _verify_download p strict w with
  | (Return true, w') =>
      (Return (Some p),
       record
         [Log INFO
            ("Local copy of " +:+ filename (self w)
             +:+ " is already up to date.")] w')
  | (Return false, w') => (Return None, w')
  | (Raise (ArtifactBroken _), w') =>
      (Return None,
       record [Log WARNING "Jenkins artifact could not be identified."] w')
  | (Raise e, w') => (Raise e, w')
  | (Diverge, w') => (Diverge, w')
  end.
Proof.
  intros Hsome Hbuild. unfold check_existing, bind at 1 2, get_self,
    os_path_exists.
  rewrite (bool_decide_eq_true_2 _ Hsome), Hbuild.
  unfold try_except_ArtifactBroken, bind at 1.
  destruct (_verify_download p strict w)
    as [[[|] | [msg | | | path | what | | |] |] w']; reflexivity.
Qed.

(** An early return only comes from a verification that returned [True] on
    an existing file of an artifact with a known build. *)
Lemma check_existing_early (p q : string) (strict : bool) (w w0 : World) :
  check_existing p strict w = (Return (Some q), w0) ->
  q = p /\ build_known (build (self w)) = true /\
  exists w',
    _verify_download p strict w = (Return true, w') /\
    w0 = record
           [Log INFO
              ("Local copy of " +:+ filename (self w)
               +:+ " is already up to date.")] w'.
Proof.
  destruct (fs w !! p) as [node |] eqn:Hnode.
  - destruct (build_known (build (self w))) eqn:Hbuild.
    + rewrite check_existing_tracked by eauto.
      destruct (_verify_download p strict w)
        as [[[|] | [msg | | | path | what | | |] |] w']; try discriminate.
      intros [= <- <-]. eauto.
    + rewrite check_existing_untracked by eauto. discriminate.
  - rewrite check_existing_missing by assumption. discriminate.
Qed.

Lemma do_download_returns_path (p q : string) (w : World) :
  fst (_do_download p w) = Return q -> q = p.
Proof.
  unfold _do_download, bind at 1.
  destruct (get_jenkins_obj w) as [[j | e |] w1]; cbn; try discriminate.
  destruct (requester_get j (url (self w1))) as [data |]; cbn;
    [| discriminate].
  unfold bind.
  destruct (open_wb p _) as [[[] | e |] w2]; cbn; try discriminate.
  destruct (write_chunks p (iter_content data) w2) as [[[] | e |] w3]; cbn;
    try discriminate.
  destruct (stream_broken data); cbn; [discriminate |].
  intros [= <-]. reflexivity.
Qed.

(** An existing file that verifies ends [save] at once: the path is
    returned, nothing is downloaded and no file changes. *)
Lemma save_short_circuit (p : string) (strict : bool) (w : World) :
  is_Some (fs w !! p) ->
  build_known (build (self w)) = true ->
  fst (_verify_download p strict w) = Return true ->
  fst (save p strict w) = Return p /\
  downloads (trace (snd (save p strict w))) = downloads (trace w) /\
  fs (snd (save p strict w)) = fs w.
Proof.
  intros Hsome Hbuild Hok.
  unfold save, bind. rewrite before_download_run.
  set (w0 := record (prelude (self w) p) w).
  rewrite check_existing_tracked by assumption.
  pose proof (verify_outcome_ext p strict w0 w eq_refl eq_refl) as Hext.
  destruct (verify_effects p strict w0) as (evs & Hsnd & Hevs).
  destruct (_verify_download p strict w0) as [r w'].
  cbn in Hext, Hsnd. rewrite Hok in Hext. subst r w'. cbv beta iota.
  unfold ret. cbn [fst snd]. subst w0. rewrite !record_record.
  split; [reflexivity |]. split; [| reflexivity].
  rewrite trace_record, !downloads_app, downloads_prelude, Hevs.
  cbn. lia.
Qed.

(** C3: with a known build, an existing file that verifies makes [save]
    return the path at once, with no download and no file changed; and a
    [save] that follows one that returned does just that. *)
Theorem save_is_idempotent (p : string) (strict : bool) (w : World) :
  build_known (build (self w)) = true ->
  (is_Some (fs w !! p) ->
   fst (_verify_download p strict w) = Return true ->
   fst (save p strict w) = Return p /\
   downloads (trace (snd (save p strict w))) = downloads (trace w) /\
   fs (snd (save p strict w)) = fs w) /\
  (forall q w1,
     save p strict w = (Return q, w1) ->
     fst (save p strict w1) = Return p /\
     downloads (trace (snd (save p strict w1))) = downloads (trace w1)).
Proof.
  intros Hbuild. split; [intros; apply save_short_circuit; assumption |].
  intros q w1 Hsave.
  assert (Hself : self w1 = self w).
  { pose proof (keeps_self_save p strict w) as Hk.
    rewrite Hsave in Hk. exact Hk. }
  assert (Hverified : exists wd,
             fs w1 = fs wd /\ self w1 = self wd /\
             fst (_verify_download p strict wd) = Return true).
  { unfold save, bind in Hsave. rewrite before_download_run in Hsave.
    destruct (check_existing p strict _) as [[[path |] | e |] w0] eqn:Hce;
      try discriminate.
    - injection Hsave as <- <-.
      apply check_existing_early in Hce as (_ & _ & w' & Hv & ->).
      destruct (verify_effects p strict (record (prelude (self w) p) w))
        as (evs & Hsnd & _).
      rewrite Hv in Hsnd. cbn in Hsnd. subst w'.
      exists (record (prelude (self w) p) w).
      rewrite Hv. auto.
    - unfold download_and_verify, bind in Hsave.
      destruct (_do_download p w0) as [[filepath | e |] wd] eqn:Hdd;
        try discriminate.
      pose proof (do_download_returns_path p filepath w0) as Hpath.
      rewrite Hdd in Hpath. specialize (Hpath eq_refl). subst filepath.
      destruct (verify_effects p strict wd) as (evs & Hsnd & _).
      destruct (_verify_download p strict wd) as [[v | e |] wv] eqn:Hv;
        try discriminate.
      injection Hsave as <- <-. cbn in Hsnd. subst wv.
      destruct (verify_returns_file p strict wd v) as [-> _];
        [rewrite Hv; reflexivity |].
      exists wd. rewrite Hv. auto. }
  destruct Hverified as (wd & Hfs & Hselfd & Hok).
  assert (Hok1 : fst (_verify_download p strict w1) = Return true).
  { rewrite (verify_outcome_ext p strict w1 wd) by assumption. exact Hok. }
  destruct (verify_returns_file p strict w1 true Hok1) as (_ & content & Hf).
  destruct (save_short_circuit p strict w1) as (Hret & Hdl & _);
    [rewrite Hf; eauto | rewrite Hself; exact Hbuild | exact Hok1 |].
  split; assumption.
Qed.

(** C4: once the download step has run, whatever the verification of the
    fresh file raises is what [save] raises; whereas an [ArtifactBroken]
    from the verification of a file that was already there is caught and
    [save] goes on to the download step. *)
Theorem fresh_download_failure_propagates (p : string) (strict : bool)
    (w : World) :
  (forall w0 filepath w1 e,
     before_download p strict w = (Return None, w0) ->
     _do_download p w0 = (Return filepath, w1) ->
     fst (_verify_download filepath strict w1) = Raise e ->
     save p strict w = (Raise e, snd (_verify_download filepath strict w1))) /\
  (forall msg,
     is_Some (fs w !! p) ->
     build_known (build (self w)) = true ->
     fst (_verify_download p strict w) = Raise (ArtifactBroken msg) ->
     exists w0,
       before_download p strict w = (Return None, w0) /\
       fs w0 = fs w /\
       save p strict w = download_and_verify p strict w0).
Proof.
  split.
  - intros w0 filepath w1 e Hbefore Hdd Hv.
    unfold save, bind. rewrite Hbefore.
    unfold download_and_verify, bind. rewrite Hdd.
    destruct (_verify_download filepath strict w1) as [r wv].
    cbn in Hv. subst r. reflexivity.
  - intros msg Hsome Hbuild Hv.
    unfold save, bind. rewrite before_download_run.
    set (w0 := record (prelude (self w) p) w).
    rewrite check_existing_tracked by assumption.
    pose proof (verify_outcome_ext p strict w0 w eq_refl eq_refl) as Hext.
    destruct (verify_effects p strict w0) as (evs & Hsnd & _).
    destruct (_verify_download p strict w0) as [r w'].
    cbn in Hext, Hsnd. rewrite Hv in Hext. subst r w'.
    eexists. repeat split.
Qed.

(** Without a known build an existing file is not looked at. *)
Lemma save_untracked_run (p : string) (strict : bool) (w : World) :
  is_Some (fs w !! p) ->
  build_known (build (self w)) = false ->
  let w0 :=
    record
      (prelude (self w) p ++
       [Log INFO "This file did not originate from Jenkins, so cannot check."])
      w in
  before_download p strict w = (Return None, w0) /\
  save p strict w = download_and_verify p strict w0.
Proof.
  intros Hsome Hbuild w0.
  assert (Hbefore : before_download p strict w = (Return None, w0)).
  { rewrite before_download_run, check_existing_untracked by assumption.
    rewrite record_record. reflexivity. }
  split; [exact Hbefore |].
  unfold save, bind. rewrite Hbefore. reflexivity.
Qed.

Lemma record_with_file (evs : list Event) (a : Artifact)
    (m : gmap string Node) (u : gset string) (t : list Event) (p : string)
    (c : bytes) :
  record evs (with_file a m u t p c) = with_file a m u (t ++ evs) p c.
Proof. reflexivity. Qed.

(** Opening the destination for writing forgets what the file held. *)
Lemma open_wb_with_file (a : Artifact) (m : gmap string Node)
    (u : gset string) (t : list Event) (p : string) (c : bytes) :
  open_wb p (with_file a m u t p c) =
  if bool_decide (p ∈ u) then
    (Raise (OSError p), with_file a m u (t ++ [OpenWrite p]) p c)
  else (Return tt, with_file a m u (t ++ [OpenWrite p]) p []).
Proof.
  unfold open_wb, bind, emit. rewrite record_with_file.
  cbn [unwritable fs with_file].
  destruct (bool_decide (p ∈ u)); [reflexivity |].
  rewrite lookup_insert_eq.
  unfold set_fs, with_file. cbn. rewrite insert_insert_eq. reflexivity.
Qed.

(** The download step on a world with a file at the destination. *)
Lemma do_download_with_file (a : Artifact) (m : gmap string Node)
    (u : gset string) (t : list Event) (p : string) (c : bytes) :
  _do_download p (with_file a m u t p c) =
  match build a with
  | None => (Raise AttributeError, with_file a m u t p c)
  | Some b =>
      let t1 := (t ++ [HttpGet (url a)])%list in
      match requester_get (jenkins (job b)) (url a) with
      | None => (Raise (RequestError (url a)), with_file a m u t1 p c)
      | Some data =>
          let t2 := (t1 ++ [OpenWrite p])%list in
          if bool_decide (p ∈ u) then
            (Raise (OSError p), with_file a m u t2 p c)
          else
            (write_chunks p (iter_content data) ;;;
             (if stream_broken data then raise (RequestError (url a))
              else ret tt) ;;;
             ret p) (with_file a m u t2 p [])
      end
  end.
Proof.
  unfold _do_download.
  destruct (build a) as [b |] eqn:Hbuild.
  - erewrite bind_return;
      [| unfold get_jenkins_obj, self_build, get_self, bind; cbn;
         rewrite Hbuild; reflexivity].
    erewrite bind_return by reflexivity. cbn [self with_file].
    erewrite bind_return by reflexivity. rewrite record_with_file.
    destruct (requester_get (jenkins (job b)) (url a)) as [data |];
      [| reflexivity].
    cbv zeta. destruct (bool_decide (p ∈ u)) eqn:Hu.
    + erewrite bind_raise; [reflexivity |].
      rewrite open_wb_with_file, Hu. reflexivity.
    + erewrite bind_return; [reflexivity |].
      rewrite open_wb_with_file, Hu. reflexivity.
  - erewrite bind_raise; [reflexivity |].
    unfold get_jenkins_obj, self_build, get_self, bind; cbn.
    rewrite Hbuild. reflexivity.
Qed.

(** The download step does not depend on what the destination file held:
    same outcome and same trace, and after a completed transfer the very
    same world. *)
Lemma do_download_forgets (a : Artifact) (m : gmap string Node)
    (u : gset string) (t : list Event) (p : string) (c1 c2 : bytes) :
  let r1 := _do_download p (with_file a m u t p c1) in
  let r2 := _do_download p (with_file a m u t p c2) in
  fst r1 = fst r2 /\ trace (snd r1) = trace (snd r2) /\
  (forall q, fst r1 = Return q -> snd r1 = snd r2).
Proof.
  cbv zeta. rewrite !do_download_with_file.
  destruct (build a) as [b |];
    [| cbn; repeat split; discriminate].
  destruct (requester_get (jenkins (job b)) (url a)) as [data |];
    [| cbn; repeat split; discriminate].
  cbv zeta. destruct (bool_decide (p ∈ u));
    [cbn; repeat split; discriminate |].
  repeat split.
Qed.

Lemma download_and_verify_forgets (a : Artifact) (m : gmap string Node)
    (u : gset string) (t : list Event) (p : string) (strict : bool)
    (c1 c2 : bytes) :
  let r1 := download_and_verify p strict (with_file a m u t p c1) in
  let r2 := download_and_verify p strict (with_file a m u t p c2) in
  fst r1 = fst r2 /\ trace (snd r1) = trace (snd r2).
Proof.
  unfold download_and_verify, bind.
  destruct (do_download_forgets a m u t p c1 c2) as (Hfst & Htrace & Hsame).
  destruct (_do_download p (with_file a m u t p c1)) as [r1 w1].
  destruct (_do_download p (with_file a m u t p c2)) as [r2 w2].
  cbn [fst snd] in *. subst r2.
  destruct r1 as [q | e |]; [| split; [reflexivity | exact Htrace]..].
  rewrite (Hsame q eq_refl). split; reflexivity.
Qed.

(** With no build at all the download step cannot reach the server: it
    stops at [self.build.get_jenkins_obj()]. *)
Lemma save_without_build_raises (p : string) (strict : bool) (w : World) :
  is_Some (fs w !! p) ->
  build (self w) = None ->
  fst (save p strict w) = Raise AttributeError /\
  downloads (trace (snd (save p strict w))) = downloads (trace w).
Proof.
  intros Hsome Hnone.
  destruct (save_untracked_run p strict w Hsome) as [_ ->];
    [rewrite Hnone; reflexivity |].
  unfold download_and_verify.
  erewrite bind_raise with (e := AttributeError);
    [| unfold _do_download; erewrite bind_raise; [reflexivity |];
       unfold get_jenkins_obj, self_build, get_self, bind; cbn;
       rewrite Hnone; reflexivity].
  cbn [fst snd]. split; [reflexivity |].
  rewrite trace_record, downloads_app.
  destruct (negb (endswith p (filename (self w)))); cbn; lia.
Qed.

(** When a file exists at the destination and the artifact has no known
    build, [save] goes to the download step having recorded log lines
    only, no verification; and what the file held changes neither the
    outcome nor the trace. *)
Theorem save_untracked_always_downloads (p : string) (strict : bool) :
  (forall w,
     is_Some (fs w !! p) ->
     build_known (build (self w)) = false ->
     exists w0,
       before_download p strict w = (Return None, w0) /\
       fs w0 = fs w /\
       verifications (trace w0) = verifications (trace w) /\
       save p strict w = download_and_verify p strict w0) /\
  (forall a m u t c1 c2,
     build_known (build a) = false ->
     fst (save p strict (with_file a m u t p c1)) =
       fst (save p strict (with_file a m u t p c2)) /\
     trace (snd (save p strict (with_file a m u t p c1))) =
       trace (snd (save p strict (with_file a m u t p c2)))).
Proof.
  split.
  - intros w Hsome Hbuild.
    destruct (save_untracked_run p strict w Hsome Hbuild) as [Hbefore Hsave].
    eexists. split; [exact Hbefore |]. split; [reflexivity |].
    split; [| exact Hsave].
    rewrite trace_record, !verifications_app, verifications_prelude.
    cbn. lia.
  - intros a m u t c1 c2 Hbuild.
    assert (Hsome : forall c, is_Some (fs (with_file a m u t p c) !! p)).
    { intros c. cbn. rewrite lookup_insert_eq. eauto. }
    destruct (save_untracked_run p strict (with_file a m u t p c1))
      as [_ ->]; [apply Hsome | exact Hbuild |].
    destruct (save_untracked_run p strict (with_file a m u t p c2))
      as [_ ->]; [apply Hsome | exact Hbuild |].
    rewrite !record_with_file. apply download_and_verify_forgets.
Qed.

End Save.

(** ** The theorems at work on the sample server *)

Section Instances.
Import Sample.

Lemma run_eta {A} (m : M A) (w : World) (r : Result A) :
  fst (m w) = r -> m w = (r, snd (m w)).
Proof. intros <-. destruct (m w). reflexivity. Qed.

(** The digests agree with those of [hashlib.md5] on the same bytes. *)
Example md5_log_content :
  md5_of log_content = "973cf378d36fcd620140e38a60c42ded".
Proof. vm_compute. reflexivity. Qed.

Example md5_stale_content :
  md5_of stale_content = "50dee69d33216a4d3d460caae13c3de4".
Proof. vm_compute. reflexivity. Qed.

Example md5_empty : md5_of [] = "d41d8cd98f00b204e9800998ecf8427e".
Proof. vm_compute. reflexivity. Qed.

(** The resolver of the design notes never validates a checksum it does
    not know, so with it the strict arm of line 116 adds nothing; the
    lenient one does. *)
Lemma resolver_valid_known (d : gmap string (string * Z * string))
    (base id_ f j : string) (n : Z) (unk : bool) :
  resolver d base id_ f j n = Some (true, unk) -> unk = false.
Proof.
  unfold resolver. destruct (d !! id_) as [[[j' n'] f'] |]; congruence.
Qed.

(** C1 is false as stated: a fingerprint that validates although the server
    does not know the checksum, checked strictly.  [validate_for_build]
    returns true and [_verify_download] raises. *)
Lemma verify_valid_can_raise :
  let w := world lenient_artifact stale in
  let b := build5 lenient_server true in
  fs w !! dest = Some (File stale_content) /\
  build (self w) = Some b /\
  validation (self w) b (md5_of stale_content) = Some (true, true) /\
  fst (_verify_download dest true w) =
    Raise (ArtifactBroken
             "Artifact 50dee69d33216a4d3d460caae13c3de4 seems to be broken, check http://ci.example") /\
  fst (_verify_download dest true w) <> Return true.
Proof.
  cbv zeta.
  assert (Hrun : fst (_verify_download dest true (world lenient_artifact stale))
                 = Raise (ArtifactBroken
                            "Artifact 50dee69d33216a4d3d460caae13c3de4 seems to be broken, check http://ci.example"))
    by (vm_compute; reflexivity).
  split; [vm_compute; reflexivity |].
  split; [reflexivity |].
  split; [vm_compute; reflexivity |].
  split; [exact Hrun |].
  rewrite Hrun. discriminate.
Qed.

Lemma verify_valid_unless_strict_unknown_witness :
  fst (_verify_download dest false (world lenient_artifact stale))
  = Return true /\
  fst (_verify_download dest false (world artifact current)) = Return true.
Proof.
  split.
  - apply (verify_valid_unless_strict_unknown dest false
             (world lenient_artifact stale) stale_content
             (build5 lenient_server true) true);
      vm_compute; reflexivity.
  - apply (verify_valid_unless_strict_unknown dest false
             (world artifact current) log_content
             (build5 server true) false);
      vm_compute; reflexivity.
Defined.

Lemma verify_invalid_raises_witness :
  fst (_verify_download dest false (world artifact stale)) =
  Raise (ArtifactBroken
           (broken_message (md5_of stale_content) "http://ci.example")).
Proof.
  apply (verify_invalid_raises dest false (world artifact stale)
           stale_content (build5 server true) true);
    vm_compute; reflexivity.
Defined.

Lemma broken_message_names_checksum_and_server_witness :
  exists local_md5 b,
    fst (_md5sum dest default_chunksize (world artifact stale))
      = Return local_md5 /\
    build (self (world artifact stale)) = Some b /\
    contains local_md5
      "Artifact 50dee69d33216a4d3d460caae13c3de4 seems to be broken, check http://ci.example" /\
    contains (baseurl (jenkins (job b)))
      "Artifact 50dee69d33216a4d3d460caae13c3de4 seems to be broken, check http://ci.example".
Proof.
  apply (broken_message_names_checksum_and_server dest true
           (world artifact stale)).
  vm_compute. reflexivity.
Defined.

(** Decides a bound on a chunk size on the sample platform. *)
Ltac accepted := vm_compute; split; [reflexivity | discriminate].

Lemma md5sum_chunk_size_independent_witness :
  fst (_md5sum dest 4 (world artifact current)) = Return (md5_of log_content)
  /\
  fst (_md5sum dest (2 ^ 20) (world untracked_artifact current))
  = Return (md5_of log_content).
Proof.
  apply (md5sum_chunk_size_independent log_content 4 (2 ^ 20));
    [accepted | accepted | vm_compute; reflexivity | vm_compute; reflexivity].
Defined.

(** C7 is false as stated: 4 and 2^63 are positive chunk sizes, and on a
    64-bit interpreter [f.read(2**63)] raises [OverflowError], so
    [_md5sum] returns the digest for the one and raises for the other; so
    does a chunk size the machine cannot allocate. *)
Lemma md5sum_chunk_size_can_raise :
  let w := world artifact current in
  0 < 4 /\ 0 < 2 ^ 63 /\ 0 < 2 ^ 40 /\
  fs w !! dest = Some (File log_content) /\
  fst (_md5sum dest 4 w) = Return (md5_of log_content) /\
  fst (_md5sum dest (2 ^ 63) w) = Raise OverflowError /\
  fst (_md5sum dest (2 ^ 40) w) = Raise MemoryError /\
  fst (_md5sum dest (2 ^ 63) w) <> fst (_md5sum dest 4 w).
Proof.
  cbv zeta.
  assert (H4 : fst (_md5sum dest 4 (world artifact current))
               = Return (md5_of log_content)) by (vm_compute; reflexivity).
  assert (H63 : fst (_md5sum dest (2 ^ 63) (world artifact current))
                = Raise OverflowError) by (vm_compute; reflexivity).
  split; [lia |]. split; [lia |]. split; [lia |].
  split; [vm_compute; reflexivity |].
  split; [exact H4 |]. split; [exact H63 |].
  split; [vm_compute; reflexivity |].
  rewrite H4, H63. discriminate.
Qed.

Lemma md5sum_terminates_witness :
  (forall chunk : bytes, py_eq (PyBytes chunk) sentinel = false) /\
  (exists md5, forall fuel, (length log_content < fuel)%nat ->
     md5_loop fuel 4 log_content md5_new = Some (inr (Break, md5))) /\
  (forall p w, fs w !! p = Some (File log_content) ->
     exists digest, fst (_md5sum p 4 w) = Return digest) /\
  (exists e, (e = OverflowError \/ e = MemoryError) /\
     (forall fuel,
        md5_loop (S fuel) (2 ^ 63) log_content md5_new = Some (inl e)) /\
     (forall p w, fs w !! p = Some (File log_content) ->
        fst (_md5sum p (2 ^ 63) w) = Raise e)).
Proof.
  destruct (md5sum_terminates log_content 4) as (Hs & Hin & _); [lia |].
  destruct Hin as [Hloop Hret]; [vm_compute; discriminate |].
  destruct (md5sum_terminates log_content (2 ^ 63)) as (_ & _ & Hout);
    [lia |].
  specialize (Hout ltac:(vm_compute; reflexivity)).
  repeat split; assumption.
Defined.

(** C10 is false as stated: with the positive chunk size 2^63 the loop is
    not left by [break] and [_md5sum] returns no digest; the first read
    raises. *)
Lemma md5sum_huge_chunk_returns_nothing :
  let w := world artifact current in
  0 < 2 ^ 63 /\
  fs w !! dest = Some (File log_content) /\
  (forall fuel,
     md5_loop (S fuel) (2 ^ 63) log_content md5_new
     = Some (inl OverflowError)) /\
  fst (_md5sum dest (2 ^ 63) w) = Raise OverflowError /\
  ~ (exists digest, fst (_md5sum dest (2 ^ 63) w) = Return digest).
Proof.
  cbv zeta.
  assert (H63 : fst (_md5sum dest (2 ^ 63) (world artifact current))
                = Raise OverflowError) by (vm_compute; reflexivity).
  split; [lia |]. split; [vm_compute; reflexivity |].
  split; [intros fuel; reflexivity |].
  split; [exact H63 |].
  intros [digest Hd]. rewrite H63 in Hd. discriminate.
Qed.

Lemma save_is_idempotent_witness :
  let w := world artifact absent in
  let w1 := snd (save dest false w) in
  (fst (save dest false (world artifact current)) = Return dest /\
   downloads (trace (snd (save dest false (world artifact current)))) = 0%nat)
  /\
  (downloads (trace w1) = 1%nat /\
   fst (save dest false w1) = Return dest /\
   downloads (trace (snd (save dest false w1))) = 1%nat).
Proof.
  intros w w1. split.
  - destruct (save_is_idempotent dest false (world artifact current) eq_refl)
      as [Hfirst _].
    destruct Hfirst as (Hret & Hdl & _);
      [vm_compute; eauto | vm_compute; reflexivity |].
    split; [exact Hret | exact Hdl].
  - assert (Hdl1 : downloads (trace w1) = 1%nat) by (vm_compute; reflexivity).
    destruct (save_is_idempotent dest false w eq_refl) as [_ Hsecond].
    destruct (Hsecond dest w1) as [Hret Hdl].
    + apply run_eta. vm_compute. reflexivity.
    + rewrite Hdl1 in Hdl. auto.
Defined.

Lemma fresh_download_failure_propagates_witness :
  (exists msg,
     fst (save dest false (world corrupt_artifact absent))
     = Raise (ArtifactBroken msg)) /\
  (exists w0,
     before_download dest true (world artifact stale) = (Return None, w0) /\
     fs w0 = fs (world artifact stale) /\
     save dest true (world artifact stale)
     = download_and_verify dest true w0).
Proof.
  split.
  - set (w := world corrupt_artifact absent).
    set (w0 := snd (before_download dest false w)).
    set (w1 := snd (_do_download dest w0)).
    destruct (fresh_download_failure_propagates dest false w) as [Hfresh _].
    eexists.
    rewrite (Hfresh w0 dest w1
               (ArtifactBroken
                  (broken_message (md5_of stale_content) "http://ci.example"))).
    + reflexivity.
    + apply run_eta. vm_compute. reflexivity.
    + apply run_eta. vm_compute. reflexivity.
    + vm_compute. reflexivity.
  - destruct (fresh_download_failure_propagates dest true
                (world artifact stale)) as [_ Hstale].
    apply (Hstale (broken_message (md5_of stale_content) "http://ci.example"));
      [vm_compute; eauto | vm_compute; reflexivity | vm_compute; reflexivity].
Defined.

Lemma save_untracked_always_downloads_witness :
  (exists w0,
     before_download dest false (world untracked_artifact stale)
     = (Return None, w0) /\
     fs w0 = fs (world untracked_artifact stale) /\
     verifications (trace w0) = 0%nat /\
     save dest false (world untracked_artifact stale)
     = download_and_verify dest false w0) /\
  fst (save dest false (with_file orphan_artifact absent ∅ [] dest log_content))
  = fst (save dest false
           (with_file orphan_artifact absent ∅ [] dest stale_content)).
Proof.
  destruct (save_untracked_always_downloads dest false) as [Hrun Hforget].
  split.
  - apply (Hrun (world untracked_artifact stale));
      [vm_compute; eauto | reflexivity].
  - apply (Hforget orphan_artifact absent ∅ [] log_content stale_content).
    reflexivity.
Defined.

End Instances.

(** * Further properties of the module *)

(** ** The download step *)

Lemma with_fs_same (w : World) : with_fs (fs w) w = w.
Proof. destruct w. reflexivity. Qed.

Lemma with_fs_with_fs (m m' : gmap string Node) (w : World) :
  with_fs m (with_fs m' w) = with_fs m w.
Proof. reflexivity. Qed.

(** Writing chunks to an open file appends them in order. *)
Lemma write_chunks_run (p : string) (chunks : list bytes) (w : World)
    (c : bytes) :
  fs w !! p = Some (File c) ->
  write_chunks p chunks w =
  (Return tt, with_fs (<[p := File (c ++ concat chunks)%list]> (fs w)) w).
Proof.
  revert w c. induction chunks as [| chunk chunks IH]; intros w c Hfile.
  - cbn [write_chunks concat]. rewrite app_nil_r, insert_id by exact Hfile.
    rewrite with_fs_same. reflexivity.
  - cbn [write_chunks concat].
    erewrite bind_return;
      [| unfold file_write; rewrite Hfile; reflexivity].
    unfold set_fs. fold (with_fs (<[p:=File (c ++ chunk)%list]> (fs w)) w).
    rewrite (IH _ (c ++ chunk)%list) by apply lookup_insert_eq.
    cbn [fs with_fs]. rewrite insert_insert_eq, app_assoc. reflexivity.
Qed.

Lemma open_wb_run (p : string) (w : World) :
  open_wb p w =
  if can_open_wb w p then
    (Return tt, with_fs (<[p := File []]> (fs w)) (record [OpenWrite p] w))
  else (Raise (OSError p), record [OpenWrite p] w).
Proof.
  unfold open_wb, can_open_wb, bind, emit. cbn [fs unwritable record].
  destruct (bool_decide (p ∈ unwritable w));
    destruct (fs w !! p) as [[c |] |]; reflexivity.
Qed.

(** What [_do_download] does, by the build reference, the answer of the
    requester and whether the destination can be opened. *)
Lemma do_download_run (p : string) (w : World) :
  _do_download p w =
  match build (self w) with
  | None => (Raise AttributeError, w)
  | Some b =>
      let u := url (self w) in
      let w1 := record [HttpGet u] w in
      match requester_get (jenkins (job b)) u with
      | None => (Raise (RequestError u), w1)
      | Some data =>
          let w2 := record [OpenWrite p] w1 in
          if can_open_wb w p then
            let w3 :=
              with_fs (<[p := File (concat (iter_content data))]> (fs w)) w2 in
            if stream_broken data then (Raise (RequestError u), w3)
            else (Return p, w3)
          else (Raise (OSError p), w2)
      end
  end.
Proof.
  unfold _do_download.
  destruct (build (self w)) as [b |] eqn:Hbuild.
  - erewrite bind_return;
      [| unfold get_jenkins_obj, self_build, get_self, bind;
         rewrite Hbuild; reflexivity].
    erewrite bind_return by reflexivity.
    erewrite bind_return by reflexivity.
    destruct (requester_get (jenkins (job b)) (url (self w))) as [data |];
      [| reflexivity].
    cbv zeta.
    set (w1 := record [HttpGet (url (self w))] w).
    assert (Hopen : can_open_wb w1 p = can_open_wb w p) by reflexivity.
    destruct (can_open_wb w p) eqn:Hcan.
    + erewrite bind_return; [| rewrite open_wb_run, Hopen; reflexivity].
      erewrite bind_return;
        [| apply (write_chunks_run p _ _ []); apply lookup_insert_eq].
      cbn [fs with_fs record app]. rewrite insert_insert_eq.
      destruct (stream_broken data); reflexivity.
    + erewrite bind_raise; [reflexivity |].
      rewrite open_wb_run, Hopen. reflexivity.
  - erewrite bind_raise; [reflexivity |].
    unfold get_jenkins_obj, self_build, get_self, bind.
    rewrite Hbuild. reflexivity.
Qed.

(** X1: once the request is answered and the destination opened, the file
    holds exactly the chunks received, in order, in place of whatever was
    there; [_do_download] returns the path if the stream completed and
    raises if it broke off, leaving the bytes received so far. *)
Theorem download_writes_what_was_sent (p : string) (w : World) (b : Build)
    (data : Response) :
  build (self w) = Some b ->
  requester_get (jenkins (job b)) (url (self w)) = Some data ->
  can_open_wb w p = true ->
  fst (_do_download p w) =
    (if stream_broken data then Raise (RequestError (url (self w)))
     else Return p) /\
  fs (snd (_do_download p w)) =
    <[p := File (concat (iter_content data))]> (fs w).
Proof.
  intros Hbuild Hget Hcan. rewrite do_download_run, Hbuild. cbv zeta.
  rewrite Hget, Hcan. destruct (stream_broken data); split; reflexivity.
Qed.

(** X2: when the artifact has no build, the request raises or the
    destination cannot be opened, [_do_download] raises and no file
    changes. *)
Theorem download_failure_keeps_files (p : string) (w : World) :
  build (self w) = None \/
  (exists b, build (self w) = Some b /\
     requester_get (jenkins (job b)) (url (self w)) = None) \/
  can_open_wb w p = false ->
  (exists e, fst (_do_download p w) = Raise e) /\
  fs (snd (_do_download p w)) = fs w.
Proof.
  intros Hcase. rewrite do_download_run.
  destruct (build (self w)) as [b |] eqn:Hbuild; [| cbn; eauto].
  cbv zeta.
  destruct (requester_get (jenkins (job b)) (url (self w))) as [data |]
    eqn:Hreq; [| cbn; eauto].
  destruct Hcase as [Hnone | [(b' & Hb' & Hget) | Hcan]];
    [congruence | congruence |].
  rewrite Hcan. cbn. eauto.
Qed.

Section Further.
Context `{HL : Hashlib} `{PF : Platform}.

(** X3: what [_md5sum] does with a chunk size that is not positive.  With
    zero it reads nothing and returns the digest of the empty byte string
    whatever the file holds.  With -1 it reads the file in one go and
    returns its digest, or raises [MemoryError] if the file cannot be held
    at once.  Below -1 the first read raises: [ValueError], or
    [OverflowError] below the index range. *)
Theorem md5sum_nonpositive_chunksize (p : string) (w : World)
    (content : bytes) (c : Z) :
  c <= 0 ->
  fs w !! p = Some (File content) ->
  fst (_md5sum p c w) =
  if c =? 0 then Return (md5_of [])
  else if c =? -1 then
    if alloc_limit <? Z.of_nat (length content) then Raise MemoryError
    else Return (md5_of content)
  else if c <? - maxsize - 1 then Raise OverflowError
  else Raise ValueError.
Proof.
  intros Hc Hfile. rewrite _md5sum_run, Hfile.
  unfold md5sum_file, rounds.
  destruct (Z.eqb_spec c 0) as [-> | Hne0].
  - rewrite md5_loop_zero. unfold md5_of. rewrite md5_update_nil.
    reflexivity.
  - destruct (Z.eqb_spec c (-1)) as [-> | Hne1].
    + rewrite md5_loop_minus_one by lia.
      destruct (alloc_limit <? Z.of_nat (length content)); reflexivity.
    + rewrite md5_loop_negative by lia.
      destruct (c <? - maxsize - 1); reflexivity.
Qed.

(** Exactly what a verification adds to the trace. *)
Lemma verify_trace (p : string) (strict : bool) (w : World) :
  exists evs,
    snd (_verify_download p strict w) = record evs w /\
    downloads evs = 0%nat /\ checksum_passes evs = 1%nat /\
    (lookups evs <= 1)%nat.
Proof.
  rewrite _verify_download_run.
  destruct (fs w !! p) as [[content |] |]; cbn;
    try (eexists; repeat split; cbn; lia).
  destruct (build (self w)) as [b |]; cbn;
    try (eexists; repeat split; cbn; lia).
  destruct (validation (self w) b (md5_of content)) as [[valid unk] |];
    cbn; try (eexists; repeat split; cbn; lia).
  destruct (negb valid || unk && strict); eexists; repeat split; cbn; lia.
Qed.

(** The world after a verification does not depend on the strictness. *)
Lemma verify_world_strictness (p : string) (w : World) :
  snd (_verify_download p true w) = snd (_verify_download p false w).
Proof.
  rewrite !_verify_download_run.
  destruct (fs w !! p) as [[content |] |]; cbn; try reflexivity.
  destruct (build (self w)) as [b |]; cbn; [| reflexivity].
  destruct (validation (self w) b (md5_of content)) as [[valid unk] |];
    cbn; [| reflexivity].
  destruct valid, unk; reflexivity.
Qed.

(** X4: a verification is read-only.  It changes no file, makes no
    download, reads the file for its checksum once and looks the
    fingerprint up at most once, whatever its outcome. *)
Theorem verification_is_read_only (p : string) (strict : bool) (w : World) :
  fs (snd (_verify_download p strict w)) = fs w /\
  exists evs,
    trace (snd (_verify_download p strict w)) = (trace w ++ evs)%list /\
    downloads evs = 0%nat /\ checksum_passes evs = 1%nat /\
    (lookups evs <= 1)%nat.
Proof.
  destruct (verify_trace p strict w) as (evs & -> & Hd & Hc & Hl).
  split; [reflexivity |]. exists evs. auto.
Qed.

Lemma verify_strictness (p : string) (w : World) :
  (fst (_verify_download p true w) = Return true ->
   fst (_verify_download p false w) = Return true) /\
  (forall e, fst (_verify_download p false w) = Raise e ->
             fst (_verify_download p true w) = Raise e).
Proof.
  rewrite !_verify_download_run.
  destruct (fs w !! p) as [[content |] |]; cbn; try (split; congruence).
  destruct (build (self w)) as [b |]; cbn; [| split; congruence].
  destruct (validation (self w) b (md5_of content)) as [[valid unk] |];
    cbn; [| split; congruence].
  destruct valid, unk; cbn; split; congruence.
Qed.

(** X5: strictness only rejects more.  A file that verifies strictly
    verifies leniently, and whatever the lenient verification raises the
    strict one raises too. *)
Theorem strict_only_rejects_more (p : string) (w : World) :
  (fst (_verify_download p true w) = Return true ->
   fst (_verify_download p false w) = Return true) /\
  (forall e, fst (_verify_download p false w) = Raise e ->
             fst (_verify_download p true w) = Raise e).
Proof.
  destruct (verify_strictness p w) as [Hreturn Hraise].
  split; [exact Hreturn | exact Hraise].
Qed.

End Further.

(** ** Counting effects *)

Lemma checksum_passes_app (t1 t2 : list Event) :
  checksum_passes (t1 ++ t2) = (checksum_passes t1 + checksum_passes t2)%nat.
Proof.
  unfold checksum_passes. rewrite List.filter_app, length_app. reflexivity.
Qed.

Lemma lookups_app (t1 t2 : list Event) :
  lookups (t1 ++ t2) = (lookups t1 + lookups t2)%nat.
Proof. unfold lookups. rewrite List.filter_app, length_app. reflexivity. Qed.

Lemma prelude_counts (a : Artifact) (p : string) :
  downloads (prelude a p) = 0%nat /\ checksum_passes (prelude a p) = 0%nat /\
  lookups (prelude a p) = 0%nat.
Proof. unfold prelude. destruct (negb _); repeat split. Qed.

Lemma adds_ret {A} (a : A) : adds_at_most 0 0 0 (ret a).
Proof. intros w. exists []. cbn. rewrite app_nil_r. repeat split; lia. Qed.

Lemma adds_weaken {A} (d c l d' c' l' : nat) (m : M A) :
  adds_at_most d c l m -> (d <= d')%nat -> (c <= c')%nat -> (l <= l')%nat ->
  adds_at_most d' c' l' m.
Proof.
  intros Hm Hd Hc Hl w. destruct (Hm w) as (evs & Ht & ? & ? & ?).
  exists evs. repeat split; [exact Ht | lia..].
Qed.

Lemma adds_bind {A B} (d1 c1 l1 d2 c2 l2 : nat) (m : M A) (k : A -> M B) :
  adds_at_most d1 c1 l1 m -> (forall a, adds_at_most d2 c2 l2 (k a)) ->
  adds_at_most (d1 + d2) (c1 + c2) (l1 + l2) (bind m k).
Proof.
  intros Hm Hk w. destruct (Hm w) as (evs1 & Ht1 & Hd1 & Hc1 & Hl1).
  unfold bind. destruct (m w) as [[a | e |] w']; cbn [fst snd] in *;
    try (exists evs1; repeat split; [exact Ht1 | lia..]).
  destruct (Hk a w') as (evs2 & Ht2 & Hd2 & Hc2 & Hl2).
  exists (evs1 ++ evs2)%list.
  rewrite Ht2, Ht1, <- app_assoc, downloads_app, checksum_passes_app,
    lookups_app.
  repeat split; lia.
Qed.

Section Effects.
Context `{HL : Hashlib} `{PF : Platform}.

Lemma adds_verify (p : string) (strict : bool) :
  adds_at_most 0 1 1 (_verify_download p strict).
Proof.
  intros w. destruct (verify_trace p strict w) as (evs & -> & Hd & Hc & Hl).
  exists evs. repeat split; lia.
Qed.

Lemma adds_do_download (p : string) : adds_at_most 1 0 0 (_do_download p).
Proof.
  intros w. rewrite do_download_run.
  destruct (build (self w)) as [b |];
    [| exists []; cbn; rewrite app_nil_r; repeat split; lia].
  cbv zeta.
  destruct (requester_get (jenkins (job b)) (url (self w))) as [data |];
    [| eexists; cbn; repeat split; cbn; lia].
  destruct (can_open_wb w p);
    [| eexists; cbn; rewrite <- app_assoc; repeat split; cbn; lia].
  destruct (stream_broken data);
    eexists; cbn; rewrite <- app_assoc; repeat split; cbn; lia.
Qed.

(** The world after the look at the destination: the world before with
    more trace, in which there is no download. *)
Lemma check_existing_world (p : string) (strict : bool) (w : World) :
  exists evs,
    snd (check_existing p strict w) = record evs w /\
    downloads evs = 0%nat /\ (checksum_passes evs <= 1)%nat /\
    (lookups evs <= 1)%nat.
Proof.
  destruct (fs w !! p) as [node |] eqn:Hnode.
  - destruct (build_known (build (self w))) eqn:Hbuild.
    + rewrite check_existing_tracked by eauto.
      destruct (verify_trace p strict w) as (evs & Hsnd & Hd & Hc & Hl).
      destruct (_verify_download p strict w)
        as [[[|] | [msg | | | path | what | | |] |] w']; cbn in Hsnd; subst w';
        cbn [snd]; rewrite ?record_record;
        eexists; (split; [reflexivity |]);
        rewrite ?downloads_app, ?checksum_passes_app, ?lookups_app;
        cbn; lia.
    + rewrite check_existing_untracked by eauto.
      eexists. split; [reflexivity |]. cbn. lia.
  - rewrite check_existing_missing by assumption.
    eexists. split; [reflexivity |]. cbn. lia.
Qed.

Lemma before_download_world (p : string) (strict : bool) (w : World) :
  exists evs,
    snd (before_download p strict w) = record evs w /\
    downloads evs = 0%nat /\ (checksum_passes evs <= 1)%nat /\
    (lookups evs <= 1)%nat.
Proof.
  rewrite before_download_run.
  destruct (check_existing_world p strict (record (prelude (self w) p) w))
    as (evs & -> & Hd & Hc & Hl).
  destruct (prelude_counts (self w) p) as (Pd & Pc & Pl).
  rewrite record_record. eexists. split; [reflexivity |].
  rewrite downloads_app, checksum_passes_app, lookups_app. lia.
Qed.

Lemma adds_before_download (p : string) (strict : bool) :
  adds_at_most 0 1 1 (before_download p strict).
Proof.
  intros w.
  destruct (before_download_world p strict w) as (evs & -> & Hd & Hc & Hl).
  exists evs. repeat split; lia.
Qed.

Lemma adds_download_and_verify (p : string) (strict : bool) :
  adds_at_most 1 1 1 (download_and_verify p strict).
Proof.
  unfold download_and_verify.
  apply (adds_bind 1 0 0 0 1 1); [apply adds_do_download |].
  intros filepath.
  apply (adds_bind 0 1 1 0 0 0); [apply adds_verify |].
  intros _. apply adds_ret.
Qed.

Lemma adds_save (p : string) (strict : bool) :
  adds_at_most 1 2 2 (save p strict).
Proof.
  unfold save.
  apply (adds_bind 0 1 1 1 1 1); [apply adds_before_download |].
  intros [path |]; [| apply adds_download_and_verify].
  apply (adds_weaken 0 0 0); [apply adds_ret | lia..].
Qed.

(** X6: one call of [save] only adds to the trace, and adds at most one
    download, two checksum passes and two fingerprint lookups. *)
Theorem save_effects_are_bounded (p : string) (strict : bool) (w : World) :
  exists evs,
    trace (snd (save p strict w)) = (trace w ++ evs)%list /\
    (downloads evs <= 1)%nat /\ (checksum_passes evs <= 2)%nat /\
    (lookups evs <= 2)%nat.
Proof. apply adds_save. Qed.

End Effects.

(** ** More on the policy of [save] *)

Section Policy.
Context `{HL : Hashlib} `{PF : Platform}.

Lemma save_missing_run (p : string) (strict : bool) (w : World) :
  fs w !! p = None ->
  save p strict w =
  download_and_verify p strict
    (record
       (prelude (self w) p ++
        [Log INFO "Local file is missing, downloading new."]) w).
Proof.
  intros Hnone. unfold save, bind.
  rewrite before_download_run, check_existing_missing by exact Hnone.
  rewrite record_record. reflexivity.
Qed.

(** The download step of an artifact that has a build object asks the
    server exactly once. *)
Lemma download_and_verify_downloads (p : string) (strict : bool) (w : World)
    (b : Build) :
  build (self w) = Some b ->
  downloads (trace (snd (download_and_verify p strict w)))
  = S (downloads (trace w)).
Proof.
  intros Hbuild. unfold download_and_verify, bind.
  rewrite do_download_run, Hbuild. cbv zeta.
  destruct (requester_get (jenkins (job b)) (url (self w))) as [data |];
    [| cbn [snd]; rewrite trace_record, downloads_app; cbn; lia].
  destruct (can_open_wb w p);
    [| cbn [snd]; rewrite !trace_record, !downloads_app; cbn; lia].
  destruct (stream_broken data);
    [cbn [snd trace with_fs]; rewrite !trace_record, !downloads_app; cbn;
     lia |].
  match goal with
  | |- context [_verify_download p strict ?w3] =>
      destruct (verify_trace p strict w3) as (evs & Hsnd & Hd & _);
      destruct (_verify_download p strict w3) as [r wv]
  end.
  cbn [snd] in Hsnd. subst wv.
  destruct r; cbn [snd ret trace with_fs];
    rewrite !trace_record; cbn [trace with_fs];
    rewrite !trace_record, !downloads_app, Hd; cbn; lia.
Qed.

(** X7: when nothing is at the destination and the artifact has a build
    object, [save] goes straight to the download step and asks the server
    exactly once, whatever happens next. *)
Theorem save_missing_downloads_once (p : string) (strict : bool) (w : World)
    (b : Build) :
  fs w !! p = None ->
  build (self w) = Some b ->
  save p strict w =
    download_and_verify p strict
      (record
         (prelude (self w) p ++
          [Log INFO "Local file is missing, downloading new."]) w) /\
  downloads (trace (snd (save p strict w))) = S (downloads (trace w)).
Proof.
  intros Hnone Hbuild. rewrite save_missing_run by exact Hnone.
  split; [reflexivity |].
  rewrite (download_and_verify_downloads p strict _ b) by exact Hbuild.
  rewrite trace_record, downloads_app, downloads_app, downloads_prelude.
  cbn. lia.
Qed.

(** X8: on an artifact whose build is [None], [save] raises
    [AttributeError] whether or not a file is at the destination, without
    asking the server and without changing any file. *)
Theorem save_without_build_always_raises (p : string) (strict : bool)
    (w : World) :
  build (self w) = None ->
  fst (save p strict w) = Raise AttributeError /\
  downloads (trace (snd (save p strict w))) = downloads (trace w) /\
  fs (snd (save p strict w)) = fs w.
Proof.
  intros Hnone.
  assert (Hstep : forall evs,
            download_and_verify p strict (record evs w)
            = (Raise AttributeError, record evs w)).
  { intros evs. unfold download_and_verify.
    erewrite bind_raise; [reflexivity |].
    rewrite do_download_run. cbn [self record]. rewrite Hnone.
    reflexivity. }
  assert (Hrun : exists evs,
            save p strict w = (Raise AttributeError, record evs w) /\
            downloads evs = 0%nat).
  { destruct (fs w !! p) as [node |] eqn:Hnode.
    - destruct (save_untracked_run p strict w) as [_ ->];
        [eauto | rewrite Hnone; reflexivity |].
      rewrite Hstep. eexists. split; [reflexivity |].
      rewrite downloads_app, downloads_prelude. reflexivity.
    - rewrite save_missing_run by exact Hnode.
      rewrite Hstep. eexists. split; [reflexivity |].
      rewrite downloads_app, downloads_prelude. reflexivity. }
  destruct Hrun as (evs & -> & Hd). cbn [fst snd].
  rewrite trace_record, downloads_app, Hd.
  repeat split. lia.
Qed.

Lemma check_existing_other_error (p : string) (strict : bool) (w : World)
    (e : Exception) :
  is_Some (fs w !! p) ->
  build_known (build (self w)) = true ->
  fst (_verify_download p strict w) = Raise e ->
  (forall msg, e <> ArtifactBroken msg) ->
  check_existing p strict w = (Raise e, snd (_verify_download p strict w)).
Proof.
  intros Hsome Hbuild Hraise Hother.
  rewrite check_existing_tracked by assumption.
  destruct (_verify_download p strict w) as [r w'].
  cbn [fst snd] in *. subst r.
  destruct e as [msg | | | path | what | | |]; try reflexivity.
  exfalso. exact (Hother msg eq_refl).
Qed.

(** X9: only [ArtifactBroken] is recovered from.  Any other exception of
    the verification of a file already at the destination ([OSError] when
    the destination is a directory, a failed fingerprint lookup) is what
    [save] raises, with nothing downloaded and no file changed. *)
Theorem existing_file_other_errors_propagate (p : string) (strict : bool)
    (w : World) (e : Exception) :
  is_Some (fs w !! p) ->
  build_known (build (self w)) = true ->
  fst (_verify_download p strict w) = Raise e ->
  (forall msg, e <> ArtifactBroken msg) ->
  fst (save p strict w) = Raise e /\
  downloads (trace (snd (save p strict w))) = downloads (trace w) /\
  fs (snd (save p strict w)) = fs w.
Proof.
  intros Hsome Hbuild Hraise Hother.
  set (w0 := record (prelude (self w) p) w).
  assert (Hraise0 : fst (_verify_download p strict w0) = Raise e).
  { rewrite (verify_outcome_ext p strict w0 w) by reflexivity.
    exact Hraise. }
  unfold save.
  erewrite bind_raise;
    [| rewrite before_download_run;
       apply check_existing_other_error;
       [exact Hsome | exact Hbuild | exact Hraise0 | exact Hother]].
  fold w0. destruct (verify_effects p strict w0) as (evs & -> & Hevs).
  cbn [fst snd]. split; [reflexivity |]. split; [| reflexivity].
  subst w0. rewrite !trace_record, !downloads_app, downloads_prelude, Hevs.
  lia.
Qed.

Lemma download_and_verify_returns_path (p q : string) (strict : bool)
    (w : World) :
  fst (download_and_verify p strict w) = Return q -> q = p.
Proof.
  unfold download_and_verify, bind.
  destruct (_do_download p w) as [[filepath | e |] wd]; cbn;
    try discriminate.
  destruct (_verify_download filepath strict wd) as [[v | e |] wv]; cbn;
    try discriminate.
  intros [= <-]. reflexivity.
Qed.

(** X10: [save] returns only verified files.  Whenever it returns, it
    returns the destination path, a regular file is there, and that file
    passes [_verify_download] under the same strictness. *)
Theorem save_returns_verified_file (p q : string) (strict : bool)
    (w w1 : World) :
  save p strict w = (Return q, w1) ->
  q = p /\
  fst (_verify_download p strict w1) = Return true /\
  exists content, fs w1 !! p = Some (File content).
Proof.
  intros Hsave.
  assert (Hverified : q = p /\ exists wd,
             fs w1 = fs wd /\ self w1 = self wd /\
             fst (_verify_download p strict wd) = Return true).
  { unfold save, bind in Hsave. rewrite before_download_run in Hsave.
    destruct (check_existing p strict _) as [[[path |] | e |] w0] eqn:Hce;
      try discriminate.
    - injection Hsave as <- <-.
      apply check_existing_early in Hce as (-> & _ & w' & Hv & ->).
      destruct (verify_effects p strict (record (prelude (self w) p) w))
        as (evs & Hsnd & _).
      rewrite Hv in Hsnd. cbn in Hsnd. subst w'.
      split; [reflexivity |].
      exists (record (prelude (self w) p) w). rewrite Hv. auto.
    - unfold download_and_verify, bind in Hsave.
      destruct (_do_download p w0) as [[filepath | e |] wd] eqn:Hdd;
        try discriminate.
      pose proof (do_download_returns_path p filepath w0) as Hpath.
      rewrite Hdd in Hpath. specialize (Hpath eq_refl). subst filepath.
      destruct (verify_effects p strict wd) as (evs & Hsnd & _).
      destruct (_verify_download p strict wd) as [[v | e |] wv] eqn:Hv;
        try discriminate.
      injection Hsave as <- <-. cbn in Hsnd. subst wv.
      destruct (verify_returns_file p strict wd v) as [-> _];
        [rewrite Hv; reflexivity |].
      split; [reflexivity |]. exists wd. rewrite Hv. auto. }
  destruct Hverified as (-> & wd & Hfs & Hself & Hok).
  assert (Hok1 : fst (_verify_download p strict w1) = Return true).
  { rewrite (verify_outcome_ext p strict w1 wd) by assumption. exact Hok. }
  destruct (verify_returns_file p strict w1 true Hok1) as (_ & Hfile).
  auto.
Qed.

(** The files after the download step: those before, with the destination
    replaced by what the server sent if the transfer got as far as opening
    it. *)
Lemma download_and_verify_files (p : string) (strict : bool) (w : World) :
  fs (snd (download_and_verify p strict w)) =
  match build (self w) with
  | None => fs w
  | Some b =>
      match requester_get (jenkins (job b)) (url (self w)) with
      | None => fs w
      | Some data =>
          if can_open_wb w p then
            <[p := File (concat (iter_content data))]> (fs w)
          else fs w
      end
  end.
Proof.
  unfold download_and_verify, bind. rewrite do_download_run.
  destruct (build (self w)) as [b |]; [| reflexivity]. cbv zeta.
  destruct (requester_get (jenkins (job b)) (url (self w))) as [data |];
    [| reflexivity].
  destruct (can_open_wb w p); [| reflexivity].
  destruct (stream_broken data); [reflexivity |].
  match goal with
  | |- context [_verify_download p strict ?w3] =>
      destruct (verify_effects p strict w3) as (evs & Hsnd & _);
      destruct (_verify_download p strict w3) as [r wv]
  end.
  cbn [snd] in Hsnd. subst wv. destruct r; reflexivity.
Qed.

(** X11: [save] writes nothing but the server's bytes, and nowhere but at
    the destination.  The files afterwards are those before, or those
    before with the destination replaced by the chunks of the response;
    every other path is as it was. *)
Theorem save_writes_only_destination (p : string) (strict : bool)
    (w : World) :
  (fs (snd (save p strict w)) = fs w \/
   exists b data,
     build (self w) = Some b /\
     requester_get (jenkins (job b)) (url (self w)) = Some data /\
     fs (snd (save p strict w)) =
       <[p := File (concat (iter_content data))]> (fs w)) /\
  (forall q, q <> p -> fs (snd (save p strict w)) !! q = fs w !! q).
Proof.
  assert (Hcases :
    fs (snd (save p strict w)) = fs w \/
    exists b data,
      build (self w) = Some b /\
      requester_get (jenkins (job b)) (url (self w)) = Some data /\
      fs (snd (save p strict w)) =
        <[p := File (concat (iter_content data))]> (fs w)).
  { unfold save, bind.
    destruct (before_download_world p strict w) as (evs & Hsnd & _).
    destruct (before_download p strict w) as [[[path |] | e |] w0];
      cbn [snd] in Hsnd; subst w0; try (left; reflexivity).
    rewrite download_and_verify_files. cbn [self fs record].
    change (can_open_wb (record evs w) p) with (can_open_wb w p).
    destruct (build (self w)) as [b |]; [| left; reflexivity].
    destruct (requester_get (jenkins (job b)) (url (self w))) as [data |]
      eqn:Hget; [| left; reflexivity].
    destruct (can_open_wb w p); [| left; reflexivity].
    right. exists b, data. auto. }
  split; [exact Hcases |].
  intros q Hq. destruct Hcases as [-> | (b & data & _ & _ & ->)];
    [reflexivity | apply lookup_insert_ne; congruence].
Qed.

(** X12: a transfer that got as far as opening the destination stays on
    disk.  When [save] reaches the download step, the request is answered
    and the destination can be opened, the destination holds the chunks
    received afterwards, also when the stream broke off or the verification
    of the fresh file raised. *)
Theorem completed_transfer_stays_on_disk (p : string) (strict : bool)
    (w w0 : World) (b : Build) (data : Response) :
  before_download p strict w = (Return None, w0) ->
  build (self w) = Some b ->
  requester_get (jenkins (job b)) (url (self w)) = Some data ->
  can_open_wb w p = true ->
  fs (snd (save p strict w)) =
    <[p := File (concat (iter_content data))]> (fs w).
Proof.
  intros Hbefore Hbuild Hget Hcan.
  destruct (before_download_world p strict w) as (evs & Hsnd & _).
  unfold save, bind. rewrite Hbefore in *. cbn [snd] in Hsnd. subst w0.
  rewrite download_and_verify_files. cbn [self fs record].
  change (can_open_wb (record evs w) p) with (can_open_wb w p).
  rewrite Hbuild, Hget, Hcan. reflexivity.
Qed.

Lemma verify_never_diverges (p : string) (strict : bool) (w : World) :
  fst (_verify_download p strict w) <> Diverge.
Proof.
  rewrite _verify_download_run.
  destruct (fs w !! p) as [[content |] |]; cbn; try discriminate.
  destruct (build (self w)) as [b |]; cbn; [| discriminate].
  destruct (validation (self w) b (md5_of content)) as [[valid unk] |];
    cbn; [| discriminate].
  destruct (negb valid || unk && strict); discriminate.
Qed.

Lemma download_and_verify_strictness (p q : string) (w : World) :
  fst (download_and_verify p true w) = Return q ->
  fst (download_and_verify p false w) = Return q.
Proof.
  unfold download_and_verify, bind.
  destruct (_do_download p w) as [[filepath | e |] wd]; cbn;
    try discriminate.
  destruct (verify_strictness filepath wd) as [Hmono _].
  destruct (_verify_download filepath true wd) as [[v | e |] wv] eqn:Hs;
    cbn; try discriminate.
  intros [= <-].
  destruct (verify_returns_file filepath true wd v) as [-> _];
    [rewrite Hs; reflexivity |].
  specialize (Hmono eq_refl).
  destruct (_verify_download filepath false wd) as [r wv'].
  cbn in Hmono. subst r. reflexivity.
Qed.

(** X13: strictness only makes [save] fail more.  From the same world, if
    [save] returns with [strict_validation] true, it returns the same path
    with [strict_validation] false. *)
Theorem save_strict_implies_lenient (p q : string) (w : World) :
  fst (save p true w) = Return q -> fst (save p false w) = Return q.
Proof.
  unfold save, bind. rewrite !before_download_run.
  set (w0 := record (prelude (self w) p) w).
  destruct (fs w0 !! p) as [node |] eqn:Hnode.
  - destruct (build_known (build (self w0))) eqn:Hbuild.
    + rewrite !check_existing_tracked by eauto.
      destruct (verify_strictness p w0) as [_ Hraise].
      pose proof (verify_world_strictness p w0) as Hworld.
      pose proof (verify_returns_file p false w0) as Hfile.
      pose proof (verify_never_diverges p false w0) as Hnd.
      destruct (_verify_download p false w0) as [rl wl].
      destruct (_verify_download p true w0) as [rs ws].
      cbn [fst snd] in *. subst ws.
      destruct rl as [[|] | e |].
      * intros Hstrict. cbn [fst ret]. f_equal.
        destruct rs as [[|] | [msg | | | path | what | | |] |];
          cbn [fst ret] in Hstrict; try discriminate;
          try (injection Hstrict as <-; reflexivity);
          symmetry; eapply download_and_verify_returns_path; exact Hstrict.
      * destruct (Hfile false eq_refl) as [[=] _].
      * rewrite (Hraise e eq_refl).
        destruct e as [msg | | | path | what | | |]; try discriminate.
        apply download_and_verify_strictness.
      * destruct (Hnd eq_refl).
    + rewrite !check_existing_untracked by eauto.
      apply download_and_verify_strictness.
  - rewrite !check_existing_missing by assumption.
    apply download_and_verify_strictness.
Qed.

End Policy.

(** ** An existing file and no known build *)

Section Untracked.
Context `{HL : Hashlib} `{PF : Platform}.

(** The download step of an artifact that has a build object starts with
    the request, and makes no other. *)
Lemma download_and_verify_trace (p : string) (strict : bool) (w : World)
    (b : Build) :
  build (self w) = Some b ->
  exists rest,
    trace (snd (download_and_verify p strict w))
    = (trace w ++ HttpGet (url (self w)) :: rest)%list /\
    downloads rest = 0%nat.
Proof.
  intros Hbuild. unfold download_and_verify, bind.
  rewrite do_download_run, Hbuild. cbv zeta.
  destruct (requester_get (jenkins (job b)) (url (self w))) as [data |];
    [| exists []; split; reflexivity].
  destruct (can_open_wb w p);
    [| exists [OpenWrite p]; cbn [snd];
       rewrite !trace_record, <- app_assoc; split; reflexivity].
  destruct (stream_broken data);
    [exists [OpenWrite p]; cbn [snd trace with_fs];
     rewrite !trace_record, <- app_assoc; split; reflexivity |].
  match goal with
  | |- context [_verify_download p strict ?w3] =>
      destruct (verify_trace p strict w3) as (evs & Hsnd & Hd & _);
      destruct (_verify_download p strict w3) as [r wv]
  end.
  cbn [snd] in Hsnd. subst wv. exists (OpenWrite p :: evs).
  split; [| cbn; exact Hd].
  destruct r; cbn [snd ret]; rewrite trace_record; cbn [trace with_fs];
    rewrite !trace_record, <- !app_assoc; reflexivity.
Qed.

(** C5: what [save] does when a file exists at the destination and the
    artifact's build reference is falsy.  It records log lines only, no
    verification of the file, and goes to the download step.  With a build
    object, the next effect is the download request, the only one, and a
    transfer that opens the destination replaces what the file held by what
    the server sent.  With [None] for build, the download step raises
    [AttributeError] at [self.build.get_jenkins_obj()]: nothing is
    requested and nothing is downloaded. *)
Theorem save_untracked_download_or_attribute_error (p : string)
    (strict : bool) (w : World) :
  is_Some (fs w !! p) ->
  build_known (build (self w)) = false ->
  let logs :=
    (prelude (self w) p ++
     [Log INFO "This file did not originate from Jenkins, so cannot check."])
    %list in
  match build (self w) with
  | Some b =>
      (exists rest,
         trace (snd (save p strict w))
         = (trace w ++ logs ++ HttpGet (url (self w)) :: rest)%list /\
         downloads rest = 0%nat) /\
      (forall data,
         requester_get (jenkins (job b)) (url (self w)) = Some data ->
         can_open_wb w p = true ->
         fs (snd (save p strict w))
         = <[p := File (concat (iter_content data))]> (fs w))
  | None => save p strict w = (Raise AttributeError, record logs w)
  end.
Proof.
  intros Hsome Hknown logs.
  destruct (save_untracked_run p strict w Hsome Hknown) as [_ Hsave].
  fold logs in Hsave. rewrite Hsave.
  destruct (build (self w)) as [b |] eqn:Hbuild.
  - split.
    + destruct (download_and_verify_trace p strict (record logs w) b Hbuild)
        as (rest & Htrace & Hd).
      exists rest. rewrite Htrace, trace_record, <- app_assoc.
      split; [reflexivity | exact Hd].
    + intros data Hget Hcan. rewrite download_and_verify_files.
      cbn [self fs record].
      change (can_open_wb (record logs w) p) with (can_open_wb w p).
      rewrite Hbuild, Hget, Hcan. reflexivity.
  - unfold download_and_verify.
    erewrite bind_raise; [reflexivity |].
    rewrite do_download_run. cbn [self record]. rewrite Hbuild.
    reflexivity.
Qed.

End Untracked.

(** ** Paths and [save_to_dir] *)

Lemma length_append (a b : string) :
  String.length (a +:+ b) = (String.length a + String.length b)%nat.
Proof.
  induction a as [| c a IH]; [reflexivity |].
  change (S (String.length (a +:+ b))
          = S (String.length a + String.length b)).
  congruence.
Qed.

Lemma substring_all (b : string) : substring 0 (String.length b) b = b.
Proof.
  induction b as [| c b IH]; [reflexivity |].
  cbn [String.length substring]. congruence.
Qed.

Lemma substring_append (a b : string) :
  substring (String.length a) (String.length b) (a +:+ b) = b.
Proof.
  induction a as [| c a IH]; [apply substring_all |].
  change (substring (String.length a) (String.length b) (a +:+ b) = b).
  exact IH.
Qed.

Lemma endswith_append (a b : string) : endswith (a +:+ b) b = true.
Proof.
  unfold endswith. rewrite length_append.
  replace (String.length a + String.length b - String.length b)%nat
    with (String.length a) by lia.
  rewrite substring_append.
  rewrite bool_decide_eq_true_2 by reflexivity.
  rewrite andb_true_r. apply Nat.leb_le. lia.
Qed.

(** Whatever the directory, the joined path ends with the file name. *)
Lemma os_path_join_endswith (d f : string) :
  endswith (os_path_join d f) f = true.
Proof.
  unfold os_path_join.
  destruct (startswith f "/"); [apply (endswith_append "" f) |].
  destruct (bool_decide (d = "") || endswith d "/");
    [apply endswith_append |].
  rewrite <- append_assoc. apply endswith_append.
Qed.

Section SaveToDir.
Context `{HL : Hashlib} `{PF : Platform}.

Lemma save_to_dir_run (d : string) (strict : bool) (w : World) :
  save_to_dir d strict w =
  match fs w !! d with
  | Some Dir => save (os_path_join d (filename (self w))) strict w
  | _ => (Raise AssertionError, w)
  end.
Proof.
  unfold save_to_dir.
  erewrite bind_return by reflexivity.
  erewrite bind_return by reflexivity.
  destruct (fs w !! d) as [[c |] |] eqn:Hd.
  - rewrite bool_decide_eq_true_2 by eauto.
    erewrite bind_return by reflexivity.
    erewrite bind_return by (unfold os_path_isdir; rewrite Hd; reflexivity).
    erewrite bind_raise; reflexivity.
  - rewrite bool_decide_eq_true_2 by eauto.
    erewrite bind_return by reflexivity.
    erewrite bind_return by (unfold os_path_isdir; rewrite Hd; reflexivity).
    erewrite bind_return by reflexivity. reflexivity.
  - rewrite bool_decide_eq_false_2 by (intros [x [=]]).
    erewrite bind_raise; reflexivity.
Qed.

(** X14: [save_to_dir] on a path that is missing or is a regular file
    raises [AssertionError] before anything else happens: no log record, no
    request, no file change. *)
Theorem save_to_dir_requires_directory (d : string) (strict : bool)
    (w : World) :
  fs w !! d <> Some Dir ->
  save_to_dir d strict w = (Raise AssertionError, w).
Proof.
  intros Hd. rewrite save_to_dir_run.
  destruct (fs w !! d) as [[c |] |]; congruence.
Qed.

(** X15: on a directory [save_to_dir] is [save] at the joined path, and
    that path always ends with the artifact's file name, so the warning
    about a changed file name is never logged: the prelude of the [save] is
    its one INFO record. *)
Theorem save_to_dir_keeps_filename (d : string) (strict : bool) (w : World) :
  fs w !! d = Some Dir ->
  let path := os_path_join d (filename (self w)) in
  save_to_dir d strict w = save path strict w /\
  endswith path (filename (self w)) = true /\
  prelude (self w) path =
    [Log INFO ("Saving artifact @ " +:+ url (self w) +:+ " to " +:+ path)].
Proof.
  intros Hd path. rewrite save_to_dir_run, Hd.
  split; [reflexivity |].
  pose proof (os_path_join_endswith d (filename (self w))) as Hend.
  split; [exact Hend |].
  unfold prelude. fold path. subst path. rewrite Hend. reflexivity.
Qed.

(** X16: an artifact whose file name is absolute is saved at that name:
    [os.path.join] drops the directory, which only has to exist. *)
Theorem save_to_dir_absolute_filename (d : string) (strict : bool)
    (w : World) :
  fs w !! d = Some Dir ->
  startswith (filename (self w)) "/" = true ->
  save_to_dir d strict w = save (filename (self w)) strict w.
Proof.
  intros Hd Habs. rewrite save_to_dir_run, Hd.
  unfold os_path_join. rewrite Habs. reflexivity.
Qed.

End SaveToDir.

(** ** [get_data] and [__repr__] *)

Lemma get_data_run (w : World) :
  get_data w =
  match build (self w) with
  | None => (Raise AttributeError, w)
  | Some b =>
      let u := url (self w) in
      let w1 := record [HttpGet u] w in
      match requester_get (jenkins (job b)) u with
      | None => (Raise (RequestError u), w1)
      | Some data =>
          if stream_broken data then (Raise (RequestError u), w1)
          else (Return (concat (iter_content data)), w1)
      end
  end.
Proof.
  unfold get_data.
  destruct (build (self w)) as [b |] eqn:Hbuild.
  - erewrite bind_return;
      [| unfold get_jenkins_obj, self_build, get_self, bind;
         rewrite Hbuild; reflexivity].
    erewrite bind_return by reflexivity.
    erewrite bind_return by reflexivity.
    cbv zeta. unfold response_content.
    destruct (requester_get (jenkins (job b)) (url (self w))) as [data |];
      [| reflexivity].
    destruct (stream_broken data); reflexivity.
  - erewrite bind_raise; [reflexivity |].
    unfold get_jenkins_obj, self_build, get_self, bind.
    rewrite Hbuild. reflexivity.
Qed.

(** X17: [get_data] changes no file, and the bytes it returns are the
    bytes a download to any destination that can be opened puts there. *)
Theorem get_data_agrees_with_download (p : string) (w : World)
    (content : bytes) :
  fst (get_data w) = Return content ->
  fs (snd (get_data w)) = fs w /\
  (can_open_wb w p = true ->
   fst (_do_download p w) = Return p /\
   fs (snd (_do_download p w)) !! p = Some (File content)).
Proof.
  rewrite get_data_run, do_download_run.
  destruct (build (self w)) as [b |]; cbn zeta; [| discriminate].
  destruct (requester_get (jenkins (job b)) (url (self w))) as [data |];
    [| discriminate].
  destruct (stream_broken data); [discriminate |].
  intros [= <-]. split; [reflexivity |].
  intros ->. cbn [fst snd fs with_fs]. split; [reflexivity |].
  apply lookup_insert_eq.
Qed.

Lemma append_inj_l (s s' t : string) : s +:+ t = s' +:+ t -> s = s'.
Proof.
  revert s'. induction s as [| c s IH]; intros [| c' s'] Heq.
  - reflexivity.
  - change (t = String c' s' +:+ t) in Heq.
    apply (f_equal String.length) in Heq.
    rewrite length_append in Heq. cbn [String.length] in Heq. lia.
  - change (String c s +:+ t = t) in Heq.
    apply (f_equal String.length) in Heq.
    rewrite length_append in Heq. cbn [String.length] in Heq. lia.
  - change (String c (s +:+ t) = String c' (s' +:+ t)) in Heq.
    injection Heq as -> Heq. f_equal. apply IH. exact Heq.
Qed.

(** X18: the repr of an artifact names its URL and nothing else of it:
    two artifacts have the same repr exactly when they have the same
    URL. *)
Theorem repr_determined_by_url (a a' : Artifact) :
  __repr__ a = __repr__ a' <-> url a = url a'.
Proof.
  unfold __repr__. split; [| intros ->; reflexivity].
  intros Heq.
  repeat (apply String.app_inj in Heq).
  apply append_inj_l in Heq. exact Heq.
Qed.

(** ** The further properties at work on the sample server *)

Section MoreInstances.
Import Sample.

Lemma download_writes_what_was_sent_witness :
  fst (_do_download dest (world artifact stale)) = Return dest /\
  fs (snd (_do_download dest (world artifact stale)))
  = <[dest := File (concat (iter_content sample_response))]> stale.
Proof.
  apply (download_writes_what_was_sent dest (world artifact stale)
           (build5 server true) sample_response);
    vm_compute; reflexivity.
Defined.

Lemma download_failure_keeps_files_witness :
  (exists e, fst (_do_download dest (world orphan_artifact stale)) = Raise e)
  /\ fs (snd (_do_download dest (world orphan_artifact stale))) = stale.
Proof.
  apply (download_failure_keeps_files dest (world orphan_artifact stale)).
  left. reflexivity.
Defined.

Lemma md5sum_nonpositive_chunksize_witness :
  fst (_md5sum dest 0 (world artifact current)) = Return (md5_of []) /\
  fst (_md5sum dest (-1) (world artifact current))
  = Return (md5_of log_content) /\
  fst (_md5sum dest (-5) (world artifact current)) = Raise ValueError /\
  fst (_md5sum dest (- 2 ^ 63 - 1) (world artifact current))
  = Raise OverflowError.
Proof.
  pose proof (fun c Hc =>
                md5sum_nonpositive_chunksize dest (world artifact current)
                  log_content c Hc eq_refl) as Hrun.
  rewrite (Hrun 0), (Hrun (-1)), (Hrun (-5)), (Hrun (- 2 ^ 63 - 1)) by lia.
  vm_compute. auto.
Defined.

Lemma strict_only_rejects_more_witness :
  fst (_verify_download dest false (world artifact current)) = Return true.
Proof.
  apply (proj1 (strict_only_rejects_more dest (world artifact current))).
  vm_compute. reflexivity.
Defined.

Lemma save_missing_downloads_once_witness :
  downloads (trace (snd (save dest false (world artifact absent)))) = 1%nat.
Proof.
  apply (proj2 (save_missing_downloads_once dest false
                  (world artifact absent) (build5 server true)
                  ltac:(vm_compute; reflexivity) eq_refl)).
Defined.

Lemma save_without_build_always_raises_witness :
  fst (save dest false (world orphan_artifact absent)) = Raise AttributeError
  /\
  downloads (trace (snd (save dest false (world orphan_artifact absent))))
  = 0%nat /\
  fs (snd (save dest false (world orphan_artifact absent))) = absent.
Proof.
  apply (save_without_build_always_raises dest false
           (world orphan_artifact absent)).
  reflexivity.
Defined.

(** The destination is a directory. *)
Lemma existing_file_other_errors_propagate_witness :
  fst (save "/tmp" false (world artifact absent)) = Raise (OSError "/tmp") /\
  downloads (trace (snd (save "/tmp" false (world artifact absent))))
  = 0%nat /\
  fs (snd (save "/tmp" false (world artifact absent))) = absent.
Proof.
  apply (existing_file_other_errors_propagate "/tmp" false
           (world artifact absent) (OSError "/tmp"));
    [vm_compute; eauto | reflexivity | vm_compute; reflexivity
    | discriminate].
Defined.

Lemma save_returns_verified_file_witness :
  let w1 := snd (save dest true (world artifact stale)) in
  dest = dest /\
  fst (_verify_download dest true w1) = Return true /\
  exists content, fs w1 !! dest = Some (File content).
Proof.
  intros w1.
  apply (save_returns_verified_file dest dest true (world artifact stale) w1).
  apply run_eta. vm_compute. reflexivity.
Defined.

(** The server sends bytes it has no fingerprint for: [save] raises and the
    bytes are on disk. *)
Lemma completed_transfer_stays_on_disk_witness :
  fs (snd (save dest false (world corrupt_artifact absent)))
  = <[dest := File stale_content]> absent.
Proof.
  apply (completed_transfer_stays_on_disk dest false
           (world corrupt_artifact absent)
           (snd (before_download dest false (world corrupt_artifact absent)))
           (build5 corrupt_server true)
           {| iter_content := [stale_content]; stream_broken := false |});
    [apply run_eta; vm_compute; reflexivity | reflexivity | reflexivity
    | vm_compute; reflexivity].
Defined.

Lemma save_strict_implies_lenient_witness :
  fst (save dest false (world artifact stale)) = Return dest.
Proof.
  apply (save_strict_implies_lenient dest dest (world artifact stale)).
  vm_compute. reflexivity.
Defined.

Lemma save_to_dir_requires_directory_witness :
  save_to_dir dest false (world artifact current)
  = (Raise AssertionError, world artifact current) /\
  save_to_dir "/nowhere" false (world artifact current)
  = (Raise AssertionError, world artifact current).
Proof.
  split.
  - apply (save_to_dir_requires_directory dest false
             (world artifact current)).
    vm_compute. discriminate.
  - apply (save_to_dir_requires_directory "/nowhere" false
             (world artifact current)).
    vm_compute. discriminate.
Defined.

Lemma save_to_dir_keeps_filename_witness :
  save_to_dir "/tmp" false (world artifact absent)
  = save (os_path_join "/tmp" "build.log") false (world artifact absent) /\
  endswith (os_path_join "/tmp" "build.log") "build.log" = true /\
  prelude artifact (os_path_join "/tmp" "build.log") =
    [Log INFO
       ("Saving artifact @ " +:+ log_url +:+ " to "
        +:+ os_path_join "/tmp" "build.log")].
Proof.
  apply (save_to_dir_keeps_filename "/tmp" false (world artifact absent)).
  vm_compute. reflexivity.
Defined.

Lemma save_to_dir_absolute_filename_witness :
  let a := Artifact_init "/etc/motd" log_url (Some (build5 server true)) None in
  save_to_dir "/tmp" false (world a absent)
  = save "/etc/motd" false (world a absent).
Proof.
  intros a.
  apply (save_to_dir_absolute_filename "/tmp" false (world a absent));
    vm_compute; reflexivity.
Defined.

Lemma get_data_agrees_with_download_witness :
  fs (snd (get_data (world artifact stale))) = stale /\
  (can_open_wb (world artifact stale) dest = true ->
   fst (_do_download dest (world artifact stale)) = Return dest /\
   fs (snd (_do_download dest (world artifact stale))) !! dest
   = Some (File log_content)).
Proof.
  apply (get_data_agrees_with_download dest (world artifact stale)
           log_content).
  vm_compute. reflexivity.
Defined.

(** The failing input of C5, an artifact without build over an existing
    file, and beside it an artifact whose build object is falsy. *)
Lemma save_untracked_download_or_attribute_error_witness :
  save dest false (world orphan_artifact stale)
  = (Raise AttributeError,
     record
       (prelude orphan_artifact dest ++
        [Log INFO
           "This file did not originate from Jenkins, so cannot check."])
       (world orphan_artifact stale)) /\
  downloads (trace (snd (save dest false (world orphan_artifact stale))))
  = 0%nat /\
  (exists rest,
     trace (snd (save dest false (world untracked_artifact stale)))
     = ([] ++
        (prelude untracked_artifact dest ++
         [Log INFO
            "This file did not originate from Jenkins, so cannot check."])
        ++ HttpGet log_url :: rest)%list /\
     downloads rest = 0%nat) /\
  fs (snd (save dest false (world untracked_artifact stale)))
  = <[dest := File (concat (iter_content sample_response))]> stale.
Proof.
  pose proof (save_untracked_download_or_attribute_error dest false
                (world orphan_artifact stale)
                ltac:(vm_compute; eauto) eq_refl) as Horphan.
  pose proof (save_untracked_download_or_attribute_error dest false
                (world untracked_artifact stale)
                ltac:(vm_compute; eauto) eq_refl) as [Hrequest Hfiles].
  cbv zeta in Horphan.
  split; [exact Horphan |].
  split; [vm_compute; reflexivity |].
  split; [exact Hrequest |].
  apply (Hfiles sample_response); vm_compute; reflexivity.
Defined.

(** The bounds of X6 are reached: a stale file is checked, replaced and
    checked again. *)
Example save_bounds_reached :
  let t := trace (snd (save dest false (world artifact stale))) in
  downloads t = 1%nat /\ checksum_passes t = 2%nat /\ lookups t = 2%nat.
Proof. vm_compute. auto. Qed.

End MoreInstances.
